(** * FitFuel: the nutrition engine and the entry store of [main.py]

    A shallow embedding of the calculation engine (BMR, activity multiplier,
    macro split, the [/calculate] handler) and of the JSON entry store
    ([load_users], [save_user_entry], the [/dashboard] listing).

    - Python's [float] is IEEE 754 binary64 and is modelled by Rocq's
      primitive floats, operation for operation and in the source's
      evaluation order.  Python's [int] is unbounded and is modelled by [Z].
    - [str] is modelled by [string], read as the UTF-8 code units of the
      text; comparing two such strings byte by byte orders them as Python
      orders the code points.  A Python text can hold a lone surrogate, which
      UTF-8 cannot encode: it is kept as the three bytes [ED A0..BF 80..BF]
      that the encoding scheme would give it, so a text can be encoded exactly
      when its bytes are well-formed UTF-8.
    - A function that can raise returns a [result]; the handlers, which read
      and write [data/users.json], are functions of the state of the disk.
      The disk says what the two paths name, and whether the operating system
      refuses to create, to write or to read; [pathlib]'s operations fail on
      it as they do on a POSIX system.
    - The [json] module is a parameter of the handlers.  The theorems on the
      store name the facts that they use of it. *)

From Stdlib Require Import ZArith List Bool String Ascii Lia QArith Qabs.
From Stdlib Require Import Floats Sorted Permutation OrderedTypeEx DecimalString.
Import ListNotations.

Set Warnings "-inexact-float,-register-all".
Local Open Scope string_scope.
Local Open Scope list_scope.
Local Open Scope Z_scope.

(** ** Python builtins the program relies on *)

Module Py.

(** The exceptions that the modelled code can raise. *)
Inductive exn : Type :=
| OverflowError
| ValueError
| AttributeError
| TypeError
| FileNotFoundError
| FileExistsError
| NotADirectoryError
| IsADirectoryError
| PermissionError
| OSError
| UnicodeEncodeError
| UnicodeDecodeError.

(** A computation that returns or raises. *)
Inductive result (A : Type) : Type :=
| Ok (a : A)
| Raise (e : exn).
Arguments Ok {A} a.
Arguments Raise {A} e.

Definition rbind {A B} (r : result A) (k : A -> result B) : result B :=
  match r with
  | Ok a => k a
  | Raise e => Raise e
  end.

(** [str.lower()]: the ASCII capitals are mapped to small letters.  Python
    also maps non-ASCII capitals, always to text that holds a non-ASCII
    character or one of 'k' and 'i'; so the comparison of the lowered text
    with an ASCII word without 'k' and 'i' is the same here and there. *)
Definition lower_ascii (c : ascii) : ascii :=
  let n := N_of_ascii c in
  if ((65 <=? n) && (n <=? 90))%N then ascii_of_N (n + 32) else c.

Fixpoint lower (s : string) : string :=
  match s with
  | EmptyString => EmptyString
  | String c s' => String (lower_ascii c) (lower s')
  end.

(** The UTF-8 codec in its strict mode, on the bytes of a text:
    [str.encode] and [bytes.decode] succeed on the well-formed sequences (no
    byte [C0], [C1] or above [F4], no overlong form, no surrogate, nothing
    beyond U+10FFFF) and raise on every other. *)
Definition between (lo hi : N) (c : ascii) : bool :=
  ((lo <=? N_of_ascii c) && (N_of_ascii c <=? hi))%N.

Definition continuation (c : ascii) : bool := between 128 191 c.

Fixpoint utf8 (s : string) : bool :=
  match s with
  | EmptyString => true
  | String a s1 =>
      if between 0 127 a then utf8 s1
      else
        match s1 with
        | String b s2 =>
            if between 194 223 a then continuation b && utf8 s2
            else
              match s2 with
              | String c s3 =>
                  if between 224 224 a
                  then between 160 191 b && continuation c && utf8 s3
                  else if between 237 237 a
                  then between 128 159 b && continuation c && utf8 s3
                  else if between 225 239 a
                  then continuation b && continuation c && utf8 s3
                  else
                    match s3 with
                    | String d s4 =>
                        (if between 240 240 a then between 144 191 b
                         else if between 241 243 a then continuation b
                         else between 244 244 a && between 128 143 b)
                        && continuation c && continuation d && utf8 s4
                    | EmptyString => false
                    end
              | EmptyString => false
              end
        | EmptyString => false
        end
  end.

(** The newlines of a file opened for reading as text: a carriage return,
    with the line feed after it if there is one, is read as a line feed. *)
Fixpoint universal_newlines (s : string) : string :=
  match s with
  | EmptyString => EmptyString
  | String c s1 =>
      if between 13 13 c then
        String (ascii_of_nat 10)
          match s1 with
          | String d s2 =>
              if between 10 10 d then universal_newlines s2
              else universal_newlines s1
          | EmptyString => EmptyString
          end
      else String c (universal_newlines s1)
  end.

(** The number of binary digits of a natural number ([int.bit_length]). *)
Definition bit_length (n : Z) : Z :=
  if n =? 0 then 0 else Z.log2 (Z.abs n) + 1.

(** [n / 2^k] rounded to the nearest integer, ties to the even one, for
    [0 <= n]; the identity for [k <= 0]. *)
Definition shift_round_half_even (n k : Z) : Z :=
  if k <=? 0 then n
  else
    let q := Z.shiftr n k in
    let r := n - Z.shiftl q k in
    let half := Z.shiftl 1 (k - 1) in
    if r <? half then q
    else if half <? r then q + 1
    else if Z.even q then q else q + 1.

(** The conversion of an [int] operand of a float operation
    ([PyLong_AsDouble]): the magnitude is rounded to 53 significant bits,
    ties to even, and a value whose rounded magnitude needs a binary exponent
    above 1024 raises [OverflowError] ("int too large to convert to float"). *)
Definition int_to_float (n : Z) : result float :=
  let a := Z.abs n in
  let sh := Z.max 0 (bit_length a - 53) in
  let m := shift_round_half_even a sh in
  if 1024 <? bit_length m + sh then Raise OverflowError
  else
    let f := Z.ldexp (PrimFloat.of_uint63 (Uint63.of_Z m)) sh in
    Ok (if n <? 0 then (- f)%float else f).

(** [max(a, b)] on two floats: the first argument is kept unless the second
    compares greater. *)
Definition max (a b : float) : float :=
  if (a <? b)%float then b else a.

(** [m * 2^e] rounded to the nearest integer, ties to even, for [0 < m]. *)
Definition round_half_even (m e : Z) : Z :=
  if 0 <=? e then m * 2 ^ e else shift_round_half_even m (- e).

(** [round(x)] with one argument: the nearest integer to the exact value of
    [x], ties to the even one, as an [int]; [ValueError] on a NaN and
    [OverflowError] on an infinity. *)
Definition round (x : float) : result Z :=
  match Prim2SF x with
  | S754_zero _ => Ok 0
  | S754_infinity _ => Raise OverflowError
  | S754_nan => Raise ValueError
  | S754_finite s m e =>
      let r := round_half_even (Zpos m) e in
      Ok (if s then - r else r)
  end.

End Py.

Import Py.

(** ** The calculation engine *)

(** [calculate_bmr_mifflin_st_jeor]: [age_years] is an [int], converted when
    it meets the float [5.0]. *)
Definition calculate_bmr_mifflin_st_jeor
  (weight_kg height_cm : float) (age_years : Z) (gender : string) : result float :=
  rbind (int_to_float age_years) (fun age =>
  let base := (10.0 * weight_kg + 6.25 * height_cm - 5.0 * age)%float in
  if String.eqb (lower gender) "male" then Ok (base + 5.0)%float
  else Ok (base - 161.0)%float).

(** The table of [activity_multiplier] and [dict.get] with a default. *)
Definition mapping : list (string * float) :=
  [ ("sedentary", 1.2%float);
    ("light", 1.375%float);
    ("moderate", 1.55%float);
    ("very", 1.725%float);
    ("extra", 1.9%float) ].

Fixpoint dict_get {V} (d : list (string * V)) (k : string) (default : V) : V :=
  match d with
  | [] => default
  | (k', v) :: d' => if String.eqb k' k then v else dict_get d' k default
  end.

Definition activity_multiplier (level : string) : float :=
  dict_get mapping level 1.2%float.

(** The dictionary returned by [compute_macros] has three fixed keys. *)
Module Macros.
Record t : Type := {
  protein_g : float;
  fat_g : float;
  carb_g : float
}.
End Macros.

Definition compute_macros (total_calories weight_kg : float) : Macros.t :=
  let protein_grams := (1.8 * weight_kg)%float in
  let fat_grams := (0.8 * weight_kg)%float in
  let protein_cal := (protein_grams * 4.0)%float in
  let fat_cal := (fat_grams * 9.0)%float in
  let remaining_cal_for_carbs :=
    Py.max (total_calories - (protein_cal + fat_cal))%float 0.0%float in
  let carb_grams := (remaining_cal_for_carbs / 4.0)%float in
  {| Macros.protein_g := protein_grams;
     Macros.fat_g := fat_grams;
     Macros.carb_g := carb_grams |}.

(** ** Values, storage and the handlers *)

(** The Python values that JSON carries.  A [dict] keeps its keys in
    insertion order and is kept as an association list. *)
Inductive json : Type :=
| JNull
| JBool (b : bool)
| JInt (n : Z)
| JFloat (f : float)
| JStr (s : string)
| JList (l : list json)
| JDict (d : list (string * json)).

(** The [result] dictionary built by [calculate]. *)
Module Result.
Record t : Type := {
  calories : Z;
  protein_g : Z;
  fat_g : Z;
  carb_g : Z;
  bmr : Z;
  activity_multiplier : float
}.

Definition to_json (r : t) : json :=
  JDict [ ("calories", JInt (calories r));
          ("protein_g", JInt (protein_g r));
          ("fat_g", JInt (fat_g r));
          ("carb_g", JInt (carb_g r));
          ("bmr", JInt (bmr r));
          ("activity_multiplier", JFloat (activity_multiplier r)) ].
End Result.

(** What the handlers see of the disk.  The path [data/users.json] names
    nothing, a regular file with its bytes, a directory, or a symbolic link
    into a directory that does not exist.  The path [data] names nothing, a
    file that is not a directory, a symbolic link to nothing, or a directory
    with what [users.json] names in it. *)
Inductive users_json : Type :=
| NoFile
| Regular (bytes : string)
| Folder
| DeadLink.

Inductive data_path : Type :=
| NoData
| NotDir
| BrokenLink
| Dir (file : users_json).

(** [write_refusal] is the error with which the operating system refuses to
    create a directory or to open a file for writing (no permission, a
    read-only or a full disk), if it does; [read_refusal] the same for
    opening a file for reading.  No operation of the program changes them. *)
Record filesystem : Type := {
  data : data_path;
  write_refusal : option exn;
  read_refusal : option exn
}.

(** The disk with another content. *)
Definition with_data (fs : filesystem) (d : data_path) : filesystem :=
  {| data := d; write_refusal := write_refusal fs; read_refusal := read_refusal fs |}.


Definition data_file (fs : filesystem) : option string :=
  if data fs is Dir (Regular bytes) then Some bytes else None.

(** A handler step: it returns or raises, and leaves a file system. *)
Definition M (A : Type) : Type := filesystem -> result A * filesystem.

Definition ret {A} (a : A) : M A := fun fs => (Ok a, fs).

Definition bind {A B} (c : M A) (k : A -> M B) : M B :=
  fun fs =>
    match c fs with
    | (Ok a, fs') => k a fs'
    | (Raise e, fs') => (Raise e, fs')
    end.

Definition lift {A} (r : result A) : M A := fun fs => (r, fs).

Notation "x <- c ;; k" := (bind c (fun x => k))
  (at level 61, c at next level, right associativity).
Notation "c ;;; k" := (bind c (fun _ => k))
  (at level 61, right associativity).

(** [DATA_DIR.exists()] and [DATA_FILE.exists()].  [Path.exists] follows
    links and answers [False] where the path cannot be resolved: for a link
    to nothing, and for [data/users.json] where [data] is not a directory. *)
Definition data_dir_exists : M bool :=
  fun fs =>
    (Ok match data fs with
        | NoData | BrokenLink => false
        | NotDir | Dir _ => true
        end, fs).

Definition data_file_exists : M bool :=
  fun fs =>
    (Ok match data fs with
        | Dir (Regular _) | Dir Folder => true
        | _ => false
        end, fs).

(** [DATA_DIR.mkdir(parents=True, exist_ok=True)]: an existing directory is
    accepted, any other existing name is a [FileExistsError], and a new
    directory is empty. *)
Definition mkdir_data_dir : M unit :=
  fun fs =>
    match data fs with
    | NoData =>
        match write_refusal fs with
        | Some e => (Raise e, fs)
        | None => (Ok tt, with_data fs (Dir NoFile))
        end
    | Dir _ => (Ok tt, fs)
    | NotDir | BrokenLink => (Raise FileExistsError, fs)
    end.

(** [DATA_FILE.write_text(text, encoding="utf-8")] opens the file for
    writing, which creates it or cuts it to no bytes, and then encodes and
    writes the text: a text that cannot be encoded raises after the file has
    been emptied.  A failure to open leaves the disk as it is. *)
Definition write_text (text : string) : M unit :=
  fun fs =>
    match data fs with
    | NoData | BrokenLink | Dir DeadLink => (Raise FileNotFoundError, fs)
    | NotDir => (Raise NotADirectoryError, fs)
    | Dir Folder => (Raise IsADirectoryError, fs)
    | Dir NoFile | Dir (Regular _) =>
        match write_refusal fs with
        | Some e => (Raise e, fs)
        | None =>
            if utf8 text then (Ok tt, with_data fs (Dir (Regular text)))
            else (Raise UnicodeEncodeError, with_data fs (Dir (Regular "")))
        end
    end.

(** [DATA_FILE.read_text(encoding="utf-8")]: the bytes of the file, decoded,
    with the newlines of text mode. *)
Definition read_text : M string :=
  fun fs =>
    match data fs with
    | Dir (Regular bytes) =>
        match read_refusal fs with
        | Some e => (Raise e, fs)
        | None =>
            if utf8 bytes then (Ok (universal_newlines bytes), fs)
            else (Raise UnicodeDecodeError, fs)
        end
    | Dir Folder => (Raise IsADirectoryError, fs)
    | NotDir => (Raise NotADirectoryError, fs)
    | NoData | BrokenLink | Dir NoFile | Dir DeadLink => (Raise FileNotFoundError, fs)
    end.

(** [try: body / except Exception: handler]. *)
Definition try_except {A} (body handler : M A) : M A :=
  fun fs =>
    match body fs with
    | (Ok a, fs') => (Ok a, fs')
    | (Raise _, fs') => handler fs'
    end.

Definition _ensure_data_file_exists : M unit :=
  dir <- data_dir_exists ;;
  (if negb dir then mkdir_data_dir else ret tt) ;;;
  file <- data_file_exists ;;
  if negb file then write_text "[]" else ret tt.

(** [u.get(key, default)] exists on a [dict] only. *)
Fixpoint assoc (d : list (string * json)) (k : string) : option json :=
  match d with
  | [] => None
  | (k', v) :: d' => if String.eqb k' k then Some v else assoc d' k
  end.

Definition get (u : json) (k : string) (default : json) : result json :=
  match u with
  | JDict d => Ok (if assoc d k is Some v then v else default)
  | _ => Raise AttributeError
  end.

(** [list.append] exists on a [list] only. *)
Definition append (data entry : json) : result json :=
  match data with
  | JList l => Ok (JList (l ++ [entry]))
  | _ => Raise AttributeError
  end.

(** Iteration, as [sorted] performs it on its argument: a list yields its
    items, a dictionary its keys, a text its characters (here its code units;
    the elements of a text are texts in both readings), the other values are
    not iterable. *)
Definition iter (v : json) : result (list json) :=
  match v with
  | JList l => Ok l
  | JDict d => Ok (map (fun kv => JStr (fst kv)) d)
  | JStr s => Ok (map (fun c => JStr (String c EmptyString)) (list_ascii_of_string s))
  | _ => Raise TypeError
  end.

Section Handlers.

(** The [json] module: [json_loads] is [None] where [json.loads] raises (a
    [JSONDecodeError] is a [ValueError]); [json_dumps] is
    [json.dumps(_, ensure_ascii=False, indent=2)].  [lt_other] is Python's
    [<] on two values that are not both texts. *)
Variable json_loads : string -> option json.
Variable json_dumps : json -> string.
Variable lt_other : json -> json -> result bool.

Definition loads (text : string) : result json :=
  match json_loads text with
  | Some v => Ok v
  | None => Raise ValueError
  end.

Definition load_users : M json :=
  _ensure_data_file_exists ;;;
  try_except (text <- read_text ;; lift (loads text))
             (ret (JList [])).

Definition save_user_entry (entry : json) : M unit :=
  _ensure_data_file_exists ;;;
  data <- load_users ;;
  data' <- lift (append data entry) ;;
  write_text (json_dumps data').

(** [a < b] on sort keys. *)
Definition less_than (a b : json) : result bool :=
  match a, b with
  | JStr s, JStr t => Ok (String.ltb s t)
  | _, _ => lt_other a b
  end.

(** [sorted(users, key=..., reverse=True)].  The keys of all items are
    computed first.  The sort is stable: an item goes in front of the items
    after it in the input unless its key is smaller.  Where [<] is a strict
    weak order that never raises, as on texts, this is the one arrangement a
    stable descending sort can return. *)
Fixpoint insert_desc (x : json * json) (l : list (json * json))
  : result (list (json * json)) :=
  match l with
  | [] => Ok [x]
  | y :: l' =>
      rbind (less_than (fst x) (fst y)) (fun smaller =>
      if smaller then rbind (insert_desc x l') (fun r => Ok (y :: r))
      else Ok (x :: y :: l'))
  end.

Fixpoint sort_desc (l : list (json * json)) : result (list (json * json)) :=
  match l with
  | [] => Ok []
  | x :: l' => rbind (sort_desc l') (insert_desc x)
  end.

Fixpoint keyed (key : json -> result json) (l : list json)
  : result (list (json * json)) :=
  match l with
  | [] => Ok []
  | u :: l' =>
      rbind (key u) (fun k =>
      rbind (keyed key l') (fun r => Ok ((k, u) :: r)))
  end.

Definition sorted_reverse (users : json) (key : json -> result json)
  : result (list json) :=
  rbind (iter users) (fun items =>
  rbind (keyed key items) (fun ks =>
  rbind (sort_desc ks) (fun r => Ok (map snd r)))).

(** The [/dashboard] handler; its value is the [users] of the template. *)
Definition dashboard : M (list json) :=
  users <- load_users ;;
  lift (sorted_reverse users (fun u => get u "timestamp" (JStr ""))).

(** The [/calculate] handler.  [utcnow] is [datetime.utcnow().isoformat()];
    the value is the context handed to the template. *)
Record response : Type := {
  result_ : Result.t;
  inputs : json;
  saved : bool
}.

Definition calculate (name : string) (height_cm weight_kg : float)
  (age_years : Z) (gender activity_level : string) (save : option string)
  (utcnow : string) : M response :=
  bmr <- lift (calculate_bmr_mifflin_st_jeor weight_kg height_cm age_years gender) ;;
  let multiplier := activity_multiplier activity_level in
  let tdee := (bmr * multiplier)%float in
  let macros := compute_macros tdee weight_kg in
  calories <- lift (Py.round tdee) ;;
  protein <- lift (Py.round (Macros.protein_g macros)) ;;
  fat <- lift (Py.round (Macros.fat_g macros)) ;;
  carb <- lift (Py.round (Macros.carb_g macros)) ;;
  bmr_r <- lift (Py.round bmr) ;;
  let result :=
    {| Result.calories := calories;
       Result.protein_g := protein;
       Result.fat_g := fat;
       Result.carb_g := carb;
       Result.bmr := bmr_r;
       Result.activity_multiplier := multiplier |} in
  (if save is Some _ then
     save_user_entry
       (JDict [ ("name", JStr (if String.eqb name "" then "Anonymous" else name));
                ("timestamp", JStr (utcnow ++ "Z"));
                ("inputs", JDict [ ("height_cm", JFloat height_cm);
                                   ("weight_kg", JFloat weight_kg);
                                   ("age_years", JInt age_years);
                                   ("gender", JStr gender);
                                   ("activity_level", JStr activity_level) ]);
                ("results", Result.to_json result) ])
   else ret tt) ;;;
  ret {| result_ := result;
         inputs := JDict [ ("name", JStr name);
                           ("height_cm", JFloat height_cm);
                           ("weight_kg", JFloat weight_kg);
                           ("age_years", JInt age_years);
                           ("gender", JStr gender);
                           ("activity_level", JStr activity_level) ];
         saved := if save is Some _ then true else false |}.

End Handlers.

(** * The vocabulary of the properties *)

(** The keys of the activity table. *)
Definition activity_keys : list string :=
  ["sedentary"; "light"; "moderate"; "very"; "extra"].

(** Equality of two characters up to the case of an ASCII letter, and of two
    texts character by character: the specification's "case-insensitively
    equal". *)
Definition same_letter (c d : ascii) : bool :=
  let n := N_of_ascii c in
  let m := N_of_ascii d in
  ((n =? m) || ((65 <=? n) && (n <=? 90) && (m =? n + 32))
            || ((65 <=? m) && (m <=? 90) && (n =? m + 32)))%N.

Fixpoint caseless_eqb (s t : string) : bool :=
  match s, t with
  | EmptyString, EmptyString => true
  | String c s', String d t' => same_letter c d && caseless_eqb s' t'
  | _, _ => false
  end.

(** The least magnitude of an [int] that no finite binary64 is nearest to:
    [2^1024 - 2^970], half a unit in the last place above the largest finite
    float. *)
Definition int_overflow_bound : Z := 2 ^ 1024 - 2 ^ 970.

(** The exact value of a finite float, as a rational number. *)
Definition exact_value (x : float) : option Q :=
  match Prim2SF x with
  | S754_zero _ => Some 0%Q
  | S754_finite s m e =>
      let n := if s then Z.neg m else Z.pos m in
      Some (if 0 <=? e then inject_Z (n * 2 ^ e)
            else Qmake n (Z.to_pos (2 ^ (- e))))
  | _ => None
  end.

(** [r] is an integer nearest to [q], and the even one of the two when [q]
    lies exactly halfway between two integers. *)
Definition nearest_ties_even (q : Q) (r : Z) : Prop :=
  (Qabs (q - inject_Z r) <= 1 # 2)%Q /\
  ((Qabs (q - inject_Z r) == 1 # 2)%Q -> Z.even r = true).

Definition rounds_to (x : float) (r : Z) : Prop :=
  exists q, exact_value x = Some q /\ nearest_ties_even q r.

(** [x] is finite and its exact value is [q]. *)
Definition has_value (x : float) (q : Q) : Prop :=
  exists v, exact_value x = Some v /\ (v == q)%Q.

(** The exact value of a finite float in units of [2^-1074], the least
    positive float: an integer. *)
Definition scaled (X : spec_float) : option Z :=
  match X with
  | S754_zero _ => Some 0
  | S754_finite s m e => Some ((if s then Z.neg m else Z.pos m) * 2 ^ (e + 1074))
  | _ => None
  end.

Definition unit_inv : positive := Z.to_pos (2 ^ 1074).

(** The exponent of the canonical binary64 mantissa of a number of [e]
    binary digits. *)
Definition fexp64 (e : Z) : Z := Z.max (e - 53) (-1074).

(** The float of a small integer, and the float [j / 8]; both are exact for
    the integers used below. *)
Definition small_float (j : Z) : float :=
  match j with
  | Z0 => 0%float
  | Zpos _ => PrimFloat.of_uint63 (Uint63.of_Z j)
  | Zneg p => (- PrimFloat.of_uint63 (Uint63.of_Z (Zpos p)))%float
  end.

Definition eighth (j : Z) : float := (small_float j / 8)%float.

(** The two branches of the formula on one [base], and their difference. *)
Definition gap (base : float) : float := ((base + 5) - (base - 161))%float.

Definition gap_is_166 (j : Z) : bool :=
  PrimFloat.Leibniz.eqb (gap (eighth j)) 166%float.

(** [P] on every integer from [j * 2^n] up to [(j + 1) * 2^n], the upper
    end excluded. *)
Fixpoint all_below (n : nat) (j : Z) (P : Z -> bool) : bool :=
  match n with
  | O => P j
  | S n' => all_below n' (Z.double j) P && all_below n' (Z.succ_double j) P
  end.

(** The result of the worked example. *)
Definition example_result : Result.t :=
  {| Result.calories := 2759;
     Result.protein_g := 144;
     Result.fat_g := 64;
     Result.carb_g := 402;
     Result.bmr := 1780;
     Result.activity_multiplier := 1.55 |}.

(** A disk on which the operating system refuses nothing. *)
Definition disk (d : data_path) : filesystem :=
  {| data := d; write_refusal := None; read_refusal := None |}.

(** A disk without [data/]. *)
Definition empty_disk : filesystem := disk NoData.

(** An input whose protein (4.5 g) and BMR (-107.5) lie halfway. *)
Definition halfway_response : response :=
  {| result_ :=
       {| Result.calories := -167;
          Result.protein_g := 4;
          Result.fat_g := 2;
          Result.carb_g := 0;
          Result.bmr := -108;
          Result.activity_multiplier := 1.55 |};
     inputs :=
       JDict [ ("name", JStr ""); ("height_cm", JFloat 2);
               ("weight_kg", JFloat 2.5); ("age_years", JInt 30);
               ("gender", JStr "male"); ("activity_level", JStr "moderate") ];
     saved := false |}.

(** The value that a dictionary holds under a key: that of the first pair
    with the key, found with the library's [find]. *)
Definition field (d : list (string * json)) (k : string) : option json :=
  option_map snd (find (fun kv => String.eqb (fst kv) k) d).

(** The sort key of the dashboard on a stored entry: its timestamp, and the
    empty text for an entry without one. *)
Definition timestamp_of (u : json) : string :=
  match u with
  | JDict d => match field d "timestamp" with
               | Some (JStr s) => s
               | _ => ""
               end
  | _ => ""
  end.

(** A stored entry, as far as the listing needs it: a dictionary whose
    timestamp, when it has one, is a text. *)
Definition is_entry (u : json) : bool :=
  match u with
  | JDict d => match field d "timestamp" with
               | None | Some (JStr _) => true
               | Some _ => false
               end
  | _ => false
  end.

(** The stable sort by timestamp, descending, as the specification words
    the listing: an entry passes only the later entries of a strictly
    greater timestamp. *)
Fixpoint insert_newest (x : json) (l : list json) : list json :=
  match l with
  | [] => [x]
  | y :: l' =>
      if String.ltb (timestamp_of x) (timestamp_of y)
      then y :: insert_newest x l'
      else x :: y :: l'
  end.

Fixpoint newest_first (l : list json) : list json :=
  match l with
  | [] => []
  | x :: l' => insert_newest x (newest_first l')
  end.

(** [a] may stand in front of [b] in a descending listing. *)
Definition not_older (a b : json) : Prop :=
  String.leb (timestamp_of b) (timestamp_of a) = true.

(** A disk that can hold the store: [data] is absent or a directory,
    [users.json] is absent or a regular file, and the operating system
    refuses neither to write nor to read. *)
Definition usable (fs : filesystem) : bool :=
  match data fs, write_refusal fs, read_refusal fs with
  | (NoData | Dir NoFile | Dir (Regular _)), None, None => true
  | _, _, _ => false
  end.

(** The disks on which the store can be made to exist: [users.json] is
    there, as a file or as a directory, or nothing is in the way of creating
    it. *)
Definition ensurable (fs : filesystem) : bool :=
  match data fs with
  | NoData | Dir NoFile => if write_refusal fs is None then true else false
  | Dir (Regular _) | Dir Folder => true
  | NotDir | BrokenLink | Dir DeadLink => false
  end.

(** Such a disk after [_ensure_data_file_exists]. *)
Definition ensured (fs : filesystem) : filesystem :=
  match data fs with
  | NoData | Dir NoFile => with_data fs (Dir (Regular "[]"))
  | _ => fs
  end.

(** What [load_users] makes of the bytes of the file: the value that [json]
    reads in their text, and the empty list where the bytes are not UTF-8 or
    the text is not JSON. *)
Definition parsed (json_loads : string -> option json) (bytes : string) : json :=
  if utf8 bytes then
    if json_loads (universal_newlines bytes) is Some v then v else JList []
  else JList [].

(** What [load_users] returns on a disk where the store exists. *)
Definition stored (json_loads : string -> option json) (fs : filesystem) : json :=
  match data fs, read_refusal fs with
  | Dir (Regular bytes), None => parsed json_loads bytes
  | _, _ => JList []
  end.

(** An entry under its sort key, as [sorted] holds it. *)
Definition tag (u : json) : json * json := (JStr (timestamp_of u), u).

(** ** A reference reader and writer of JSON

    The theorems on the store use two facts of Python's [json] module: that
    it reads "[]" as the empty list, and that it reads back a list that it
    has written.  This module is a small reader and writer with both
    properties on the fragment without floats and escape sequences; the
    writer lays the text out as [json.dumps(_, indent=2)] does.  It serves to
    run the handlers on concrete stores. *)

Module RefJson.

Local Open Scope string_scope.

Definition dquote : ascii := ascii_of_nat 34.
Definition newline : ascii := ascii_of_nat 10.

(** A text that is written without escape sequences. *)
Definition plain_char (c : ascii) : bool :=
  let n := N_of_ascii c in ((32 <=? n) && negb (n =? 34) && negb (n =? 92))%N.

Fixpoint plain (s : string) : bool :=
  match s with
  | EmptyString => true
  | String c s' => plain_char c && plain s'
  end.

(** A value outside the fragment is written as a mark that the reader
    refuses. *)
Definition unsupported : string := "?".

Definition quote (s : string) : string :=
  if plain s then String dquote (s ++ String dquote EmptyString) else unsupported.

Fixpoint indent (level : nat) : string :=
  match level with
  | O => EmptyString
  | S n => "  " ++ indent n
  end.

Definition line (level : nat) : string := String newline (indent level).

Fixpoint dumps_at (level : nat) (v : json) : string :=
  match v with
  | JNull => "null"
  | JBool b => if b then "true" else "false"
  | JInt n => DecimalString.NilZero.string_of_int (Z.to_int n)
  | JFloat _ => unsupported
  | JStr s => quote s
  | JList [] => "[]"
  | JList (x :: l) =>
      "[" ++ line (S level) ++ dumps_at (S level) x
      ++ (fix items (l : list json) : string :=
            match l with
            | [] => EmptyString
            | y :: l' => "," ++ line (S level) ++ dumps_at (S level) y ++ items l'
            end) l
      ++ line level ++ "]"
  | JDict [] => "{}"
  | JDict ((k, x) :: d) =>
      "{" ++ line (S level) ++ quote k ++ ": " ++ dumps_at (S level) x
      ++ (fix members (d : list (string * json)) : string :=
            match d with
            | [] => EmptyString
            | (k', y) :: d' =>
                "," ++ line (S level) ++ quote k' ++ ": "
                ++ dumps_at (S level) y ++ members d'
            end) d
      ++ line level ++ "}"
  end.

Definition dumps (v : json) : string := dumps_at 0 v.

(** The reader. *)
Fixpoint skip_ws (s : string) : string :=
  match s with
  | String c s' =>
      if ((N_of_ascii c =? 32) || (N_of_ascii c =? 10)
          || (N_of_ascii c =? 13) || (N_of_ascii c =? 9))%N
      then skip_ws s' else s
  | EmptyString => s
  end.

(** The text up to the closing quote, and what follows the quote. *)
Fixpoint read_text (s : string) : option (string * string) :=
  match s with
  | EmptyString => None
  | String c s' =>
      if Ascii.eqb c dquote then Some (EmptyString, s')
      else if plain_char c then
        match read_text s' with
        | Some (t, rest) => Some (String c t, rest)
        | None => None
        end
      else None
  end.

Definition is_digit (c : ascii) : bool :=
  ((48 <=? N_of_ascii c) && (N_of_ascii c <=? 57))%N.

(** The longest run of sign and digits, and what follows it. *)
Fixpoint read_number (s : string) : string * string :=
  match s with
  | String c s' =>
      if is_digit c || Ascii.eqb c "-" then
        let (t, rest) := read_number s' in (String c t, rest)
      else (EmptyString, s)
  | EmptyString => (EmptyString, s)
  end.

Definition expect (word : string) (v : json) (s : string) : option (json * string) :=
  if String.prefix word s
  then Some (v, substring (String.length word) (String.length s - String.length word) s)
  else None.

Section Reader.

Variable value : string -> option (json * string).

Fixpoint items (n : nat) (s : string) : option (list json * string) :=
  match n with
  | O => None
  | S n' =>
      match value s with
      | Some (v, s1) =>
          match skip_ws s1 with
          | String "," s2 =>
              match items n' s2 with
              | Some (l, rest) => Some (v :: l, rest)
              | None => None
              end
          | String "]" s2 => Some ([v], s2)
          | _ => None
          end
      | None => None
      end
  end.

Definition member (s : string) : option ((string * json) * string) :=
  match skip_ws s with
  | String c s1 =>
      if Ascii.eqb c dquote then
        match read_text s1 with
        | Some (k, s2) =>
            match skip_ws s2 with
            | String ":" s3 =>
                match value s3 with
                | Some (v, s4) => Some ((k, v), s4)
                | None => None
                end
            | _ => None
            end
        | None => None
        end
      else None
  | EmptyString => None
  end.

Fixpoint members (n : nat) (s : string) : option (list (string * json) * string) :=
  match n with
  | O => None
  | S n' =>
      match member s with
      | Some (kv, s1) =>
          match skip_ws s1 with
          | String "," s2 =>
              match members n' s2 with
              | Some (d, rest) => Some (kv :: d, rest)
              | None => None
              end
          | String "}" s2 => Some ([kv], s2)
          | _ => None
          end
      | None => None
      end
  end.

End Reader.

Fixpoint value (fuel : nat) (s : string) : option (json * string) :=
  match fuel with
  | O => None
  | S fuel' =>
      match skip_ws s with
      | EmptyString => None
      | String c rest as s0 =>
          if Ascii.eqb c "n" then expect "null" JNull s0
          else if Ascii.eqb c "t" then expect "true" (JBool true) s0
          else if Ascii.eqb c "f" then expect "false" (JBool false) s0
          else if Ascii.eqb c dquote then
            match read_text rest with
            | Some (t, rest') => Some (JStr t, rest')
            | None => None
            end
          else if Ascii.eqb c "[" then
            match skip_ws rest with
            | String "]" rest' => Some (JList [], rest')
            | _ =>
                match items (value fuel') fuel' rest with
                | Some (l, rest') => Some (JList l, rest')
                | None => None
                end
            end
          else if Ascii.eqb c "{" then
            match skip_ws rest with
            | String "}" rest' => Some (JDict [], rest')
            | _ =>
                match members (value fuel') fuel' rest with
                | Some (d, rest') => Some (JDict d, rest')
                | None => None
                end
            end
          else
            let (t, rest') := read_number s0 in
            match DecimalString.NilZero.int_of_string t with
            | Some n => Some (JInt (Z.of_int n), rest')
            | None => None
            end
      end
  end.

Definition loads (s : string) : option json :=
  match value (S (String.length s)) s with
  | Some (v, rest) => if skip_ws rest is EmptyString then Some v else None
  | None => None
  end.

(** Python's [<] on two values that are not both texts is outside the
    claims on the listing; the runs below never reach it. *)
Definition lt_other (a b : json) : result bool := Raise TypeError.

End RefJson.

Definition ann : json :=
  JDict [ ("name", JStr "Ann"); ("timestamp", JStr "2024-01-15T10:30:00.123456Z") ].
Definition bob : json :=
  JDict [ ("name", JStr "Bob"); ("timestamp", JStr "2024-03-02T08:00:00.000001Z");
          ("results", JDict [ ("calories", JInt 2759); ("bmr", JInt 1780) ]) ].
Definition old_entry : json := JDict [ ("name", JStr "Anonymous") ].

(** A disk whose file holds the text of [v]. *)
Definition disk_of (v : json) : filesystem :=
  disk (Dir (Regular (RefJson.dumps v))).

(** A text with a surrogate that has no partner, U+D800, and an entry that
    holds it: a [dict] that Python builds and [json.dumps] writes, and that
    UTF-8 cannot encode. *)
Definition lone_surrogate : string :=
  String (ascii_of_nat 237) (String (ascii_of_nat 160) (String (ascii_of_nat 128) "")).

Definition stray : json :=
  JDict [ ("name", JStr lone_surrogate); ("timestamp", JStr "2024-06-01T00:00:00Z") ].

(** An entry with an empty timestamp. *)
Definition undated : json := JDict [ ("timestamp", JStr "") ].

(** ** The vocabulary of the further properties *)

(** The sixteen spellings of "male" in capitals and small letters. *)
Definition male_spellings : list string :=
  [ "male"; "malE"; "maLe"; "maLE"; "mAle"; "mAlE"; "mALe"; "mALE";
    "Male"; "MalE"; "MaLe"; "MaLE"; "MAle"; "MAlE"; "MALe"; "MALE" ].

(** The numeric stage of [calculate]: everything up to the [result]
    dictionary. *)
Definition computed_result (height_cm weight_kg : float) (age_years : Z)
  (gender activity_level : string) : result Result.t :=
  rbind (calculate_bmr_mifflin_st_jeor weight_kg height_cm age_years gender) (fun bmr =>
  let multiplier := activity_multiplier activity_level in
  let tdee := (bmr * multiplier)%float in
  let macros := compute_macros tdee weight_kg in
  rbind (Py.round tdee) (fun calories =>
  rbind (Py.round (Macros.protein_g macros)) (fun protein =>
  rbind (Py.round (Macros.fat_g macros)) (fun fat =>
  rbind (Py.round (Macros.carb_g macros)) (fun carb =>
  rbind (Py.round bmr) (fun bmr_r =>
  Ok {| Result.calories := calories;
        Result.protein_g := protein;
        Result.fat_g := fat;
        Result.carb_g := carb;
        Result.bmr := bmr_r;
        Result.activity_multiplier := multiplier |})))))).

(** The entry that [calculate] hands to [save_user_entry]. *)
Definition saved_entry (name : string) (height_cm weight_kg : float)
  (age_years : Z) (gender activity_level : string) (utcnow : string)
  (r : Result.t) : json :=
  JDict [ ("name", JStr (if String.eqb name "" then "Anonymous" else name));
          ("timestamp", JStr (utcnow ++ "Z"));
          ("inputs", JDict [ ("height_cm", JFloat height_cm);
                             ("weight_kg", JFloat weight_kg);
                             ("age_years", JInt age_years);
                             ("gender", JStr gender);
                             ("activity_level", JStr activity_level) ]);
          ("results", Result.to_json r) ].

(** The context that [calculate] hands to the template. *)
Definition response_of (name : string) (height_cm weight_kg : float)
  (age_years : Z) (gender activity_level : string) (save : option string)
  (r : Result.t) : response :=
  {| result_ := r;
     inputs := JDict [ ("name", JStr name);
                       ("height_cm", JFloat height_cm);
                       ("weight_kg", JFloat weight_kg);
                       ("age_years", JInt age_years);
                       ("gender", JStr gender);
                       ("activity_level", JStr activity_level) ];
     saved := if save is Some _ then true else false |}.

(** A dictionary, the one kind of value with a [get]. *)
Definition is_dict (u : json) : bool :=
  if u is JDict _ then true else false.

(** What [sorted] makes of a value that is not a list: nothing to sort in
    an empty dictionary or text, an item without [get] in a non-empty one,
    and no iteration at all over the other values. *)
Definition listing_of_non_list (v : json) : result (list json) :=
  match v with
  | JDict [] | JStr EmptyString => Ok []
  | JDict _ | JStr _ => Raise AttributeError
  | _ => Raise TypeError
  end.

(** A second reader and writer, for entries with floats.  A float is written
    in decimals, the fewest that read back to it, as Python writes the
    floats between 0.0001 and 2^53; a decimal is read as the float nearest to
    it.  The rest is as in [RefJson]. *)
Module DecJson.

Local Open Scope string_scope.

(** The float nearest to [n / 10 ^ k]. *)
Definition decimal_to_float (negative : bool) (n : Z) (k : nat) : float :=
  match n with
  | Zpos m =>
      SF2Prim (SFdiv prec emax (S754_finite negative m 0)
                 (S754_finite false (Z.to_pos (10 ^ Z.of_nat k)) 0))
  | _ => if negative then (-0)%float else 0%float
  end.

Definition digits (n : Z) : string := NilZero.string_of_int (Z.to_int n).

Fixpoint zeros (k : nat) : string :=
  match k with O => EmptyString | S k' => String "0" (zeros k') end.

(** [n / 10 ^ k] written with [k] decimals, one at least. *)
Definition fixed (n : Z) (k : nat) : string :=
  let d := digits n in
  let d := zeros (S k - String.length d)%nat ++ d in
  let whole := (String.length d - k)%nat in
  substring 0 whole d ++ "." ++
  (if Nat.eqb k 0 then "0" else substring whole k d).

(** The integer nearest to [m * 2 ^ e * 10 ^ k]. *)
Definition scaled_decimal (m : positive) (e : Z) (k : nat) : Z :=
  let n := (Zpos m * 10 ^ Z.of_nat k)%Z in
  if (0 <=? e)%Z then (n * 2 ^ e)%Z else ((2 * n + 2 ^ (- e)) / (2 * 2 ^ (- e)))%Z.

(** The fewest decimals that read back, from [k] on. *)
Fixpoint shortest (fuel : nat) (x : float) (m : positive) (e : Z) (k : nat) : string :=
  match fuel with
  | O => RefJson.unsupported
  | S fuel' =>
      let n := scaled_decimal m e k in
      if PrimFloat.Leibniz.eqb (decimal_to_float false n k) x
      then fixed n k
      else shortest fuel' x m e (S k)
  end.

Definition float_text (x : float) : string :=
  match Prim2SF x with
  | S754_zero s => if s then "-0.0" else "0.0"
  | S754_finite s m e =>
      if (abs x <? 0x1p53)%float && (0.0001 <=? abs x)%float
      then (if s then "-" else "") ++ shortest 24 (abs x) m e 0
      else RefJson.unsupported
  | _ => RefJson.unsupported
  end.


Fixpoint dumps_at (level : nat) (v : json) : string :=
  match v with
  | JFloat x => float_text x
  | JList (x :: l) =>
      "[" ++ RefJson.line (S level) ++ dumps_at (S level) x
      ++ (fix items (l : list json) : string :=
            match l with
            | [] => EmptyString
            | y :: l' => "," ++ RefJson.line (S level) ++ dumps_at (S level) y ++ items l'
            end) l
      ++ RefJson.line level ++ "]"
  | JDict ((k, x) :: d) =>
      "{" ++ RefJson.line (S level) ++ RefJson.quote k ++ ": " ++ dumps_at (S level) x
      ++ (fix members (d : list (string * json)) : string :=
            match d with
            | [] => EmptyString
            | (k', y) :: d' =>
                "," ++ RefJson.line (S level) ++ RefJson.quote k' ++ ": "
                ++ dumps_at (S level) y ++ members d'
            end) d
      ++ RefJson.line level ++ "}"
  | _ => RefJson.dumps_at level v
  end.

Definition dumps (v : json) : string := dumps_at 0 v.

(** The longest run of sign, digits and point, and what follows it. *)
Fixpoint read_number (s : string) : string * string :=
  match s with
  | String c s' =>
      if RefJson.is_digit c || Ascii.eqb c "-" || Ascii.eqb c "." then
        let (t, rest) := read_number s' in (String c t, rest)
      else (EmptyString, s)
  | EmptyString => (EmptyString, s)
  end.

(** The text before the first point and the text after it. *)
Fixpoint split_point (s : string) : option (string * string) :=
  match s with
  | EmptyString => None
  | String c s' =>
      if Ascii.eqb c "." then Some (EmptyString, s')
      else match split_point s' with
           | Some (whole, decimals) => Some (String c whole, decimals)
           | None => None
           end
  end.

Fixpoint all_digits (s : string) : bool :=
  match s with
  | EmptyString => true
  | String c s' => RefJson.is_digit c && all_digits s'
  end.

Definition number (t : string) : option json :=
  match split_point t with
  | None =>
      match NilZero.int_of_string t with
      | Some n => Some (JInt (Z.of_int n))
      | None => None
      end
  | Some (whole, decimals) =>
      let (negative, whole) :=
        match whole with
        | String "-" w => (true, w)
        | _ => (false, whole)
        end in
      if all_digits whole && all_digits decimals
         && negb (String.eqb whole "") && negb (String.eqb decimals "")
      then
        match NilZero.uint_of_string (whole ++ decimals) with
        | Some n =>
            Some (JFloat (decimal_to_float negative (Z.of_uint n) (String.length decimals)))
        | None => None
        end
      else None
  end.

Fixpoint value (fuel : nat) (s : string) : option (json * string) :=
  match fuel with
  | O => None
  | S fuel' =>
      match RefJson.skip_ws s with
      | EmptyString => None
      | String c rest as s0 =>
          if Ascii.eqb c "n" then RefJson.expect "null" JNull s0
          else if Ascii.eqb c "t" then RefJson.expect "true" (JBool true) s0
          else if Ascii.eqb c "f" then RefJson.expect "false" (JBool false) s0
          else if Ascii.eqb c RefJson.dquote then
            match RefJson.read_text rest with
            | Some (t, rest') => Some (JStr t, rest')
            | None => None
            end
          else if Ascii.eqb c "[" then
            match RefJson.skip_ws rest with
            | String "]" rest' => Some (JList [], rest')
            | _ =>
                match RefJson.items (value fuel') fuel' rest with
                | Some (l, rest') => Some (JList l, rest')
                | None => None
                end
            end
          else if Ascii.eqb c "{" then
            match RefJson.skip_ws rest with
            | String "}" rest' => Some (JDict [], rest')
            | _ =>
                match RefJson.members (value fuel') fuel' rest with
                | Some (d, rest') => Some (JDict d, rest')
                | None => None
                end
            end
          else
            let (t, rest') := read_number s0 in
            match number t with
            | Some v => Some (v, rest')
            | None => None
            end
      end
  end.

Definition loads (s : string) : option json :=
  match value (S (String.length s)) s with
  | Some (v, rest) => if RefJson.skip_ws rest is EmptyString then Some v else None
  | None => None
  end.

End DecJson.

(** A disk whose file holds a JSON object. *)
Definition object_disk : filesystem := disk (Dir (Regular "{}")).

(** The entry of the worked example, saved at noon on the first of May. *)
Definition noon : string := "2024-05-01T12:00:00.000000".
Definition example_entry : json :=
  saved_entry "" 180 80 30 "male" "moderate" noon example_result.

(** The disk whose file holds the text of [v] with its floats. *)
Definition disk_with (v : json) : filesystem :=
  disk (Dir (Regular (DecJson.dumps v))).

(** * Properties of the calculation engine *)

(** ** The activity table *)

(** C3: [activity_multiplier] sends sedentary to 1.2, light to 1.375,
    moderate to 1.55, very to 1.725 and extra to 1.9; every other text, the
    empty one included, is sent to 1.2; so the value is always one of the five
    factors and the lookup never fails. *)
Theorem activity_multiplier_table (level : string) :
  (level = "sedentary" /\ activity_multiplier level = 1.2%float) \/
  (level = "light" /\ activity_multiplier level = 1.375%float) \/
  (level = "moderate" /\ activity_multiplier level = 1.55%float) \/
  (level = "very" /\ activity_multiplier level = 1.725%float) \/
  (level = "extra" /\ activity_multiplier level = 1.9%float) \/
  (~ In level activity_keys /\ activity_multiplier level = 1.2%float).
Proof.
  unfold activity_multiplier, mapping, activity_keys; cbn [dict_get In].
  destruct (String.eqb_spec "sedentary" level) as [<-|n1]; [now left|].
  destruct (String.eqb_spec "light" level) as [<-|n2]; [now right; left|].
  destruct (String.eqb_spec "moderate" level) as [<-|n3]; [now right; right; left|].
  destruct (String.eqb_spec "very" level) as [<-|n4]; [now right; right; right; left|].
  destruct (String.eqb_spec "extra" level) as [<-|n5];
    [now right; right; right; right; left|].
  do 5 right. split; [|reflexivity]. intuition congruence.
Qed.

Example activity_multiplier_empty : activity_multiplier "" = 1.2%float.
Proof. reflexivity. Qed.

Example activity_multiplier_case_sensitive : activity_multiplier "Light" = 1.2%float.
Proof. reflexivity. Qed.

(** ** The macro split *)

(** A value rounded with a positive sign never compares below zero. *)
Lemma binary_round_aux_not_negative (mz ez : Z) (lz : SpecFloat.location) :
  SFltb (binary_round_aux prec emax false mz ez lz) (S754_zero false) = false.
Proof.
  unfold binary_round_aux.
  destruct (shr_fexp prec emax mz ez lz) as [mrs' e'].
  destruct (shr_fexp prec emax _ e' loc_Exact) as [mrs'' e''].
  destruct (shr_m mrs''); [reflexivity| |reflexivity].
  destruct (e'' <=? emax - prec); reflexivity.
Qed.

(** The quotient by four of a float that is not below zero is not below
    zero; a NaN stays a NaN and a zero keeps its sign. *)
Lemma div4_not_negative (x : float) :
  (x <? 0)%float = false -> (x / 4 <? 0)%float = false.
Proof.
  rewrite !ltb_spec, div_spec.
  change (Prim2SF 0) with (S754_zero false).
  change (Prim2SF 4) with (S754_finite false 4503599627370496 (-50)).
  destruct (Prim2SF x) as [s|s| |s m e]; cbn [SF64div SFdiv].
  - destruct s; reflexivity.
  - destruct s; [discriminate|reflexivity].
  - reflexivity.
  - destruct s; [discriminate|]. intros _.
    destruct (SFdiv_core_binary prec emax (Z.pos m) e _ _) as [[mz ez] lz].
    apply binary_round_aux_not_negative.
Qed.

(** C2: whatever the calories and the weight, the protein is [1.8 * weight]
    and the fat [0.8 * weight], neither clamped.  The carbohydrates are a
    quarter of the calories that remain after [protein*4 + fat*9], and a
    quarter of zero where the remainder compares below zero: a remainder
    above zero reaches them whole.  They never compare below zero.  At 0
    calories and 70 kg the split is 126, 56 and 0 grams; at 2759 calories and
    80 kg it is 144, 64 and 401.75 grams. *)
Theorem compute_macros_spec (total_calories weight_kg : float) :
  let m := compute_macros total_calories weight_kg in
  let p := Macros.protein_g m in
  let f := Macros.fat_g m in
  let remaining := (total_calories - (p * 4 + f * 9))%float in
  p = (1.8 * weight_kg)%float /\
  f = (0.8 * weight_kg)%float /\
  Macros.carb_g m
    = ((if (remaining <? 0)%float then 0 else remaining) / 4)%float /\
  (Macros.carb_g m <? 0)%float = false /\
  compute_macros 0 70
    = {| Macros.protein_g := 126; Macros.fat_g := 56; Macros.carb_g := 0 |} /\
  compute_macros 2759 80
    = {| Macros.protein_g := 144; Macros.fat_g := 64; Macros.carb_g := 401.75 |}.
Proof.
  cbv zeta. repeat split.
  unfold compute_macros; cbn [Macros.carb_g]. unfold Py.max.
  set (x := (total_calories - _)%float).
  destruct (x <? 0.0)%float eqn:E.
  - reflexivity.
  - now apply div4_not_negative.
Qed.

Example macros_not_clamped :
  compute_macros 0 (-10)
  = {| Macros.protein_g := (-18); Macros.fat_g := (-8); Macros.carb_g := 36 |}.
Proof. reflexivity. Qed.

(** ** Exact arithmetic in binary64

    The operations of primitive floats are specified by the functions of
    [SpecFloat] on sign, mantissa and exponent.  This part shows that these
    functions return the float of the exact result wherever there is one. *)

(** The number of binary digits of a mantissa. *)
Lemma digits2_log2 (p : positive) :
  Z.pos (digits2_pos p) = Z.log2 (Z.pos p) + 1.
Proof.
  induction p as [p IH|p IH|]; cbn [digits2_pos]; [| |reflexivity].
  - rewrite Pos2Z.inj_succ, IH.
    change (Z.pos p~1) with (2 * Z.pos p + 1).
    rewrite Z.log2_succ_double by lia. lia.
  - rewrite Pos2Z.inj_succ, IH.
    change (Z.pos p~0) with (2 * Z.pos p).
    rewrite Z.log2_double by lia. lia.
Qed.

(** Appending [k] zero bits multiplies by [2^k]. *)
Lemma iter_xO (m k : positive) :
  Z.pos (Pos.iter xO m k) = Z.pos m * 2 ^ Z.pos k.
Proof.
  induction k as [|k IH] using Pos.peano_ind.
  - cbn. lia.
  - rewrite Pos.iter_succ, Pos2Z.inj_succ, Z.pow_succ_r by lia.
    change (Z.pos (Pos.iter xO m k)~0) with (2 * Z.pos (Pos.iter xO m k)).
    rewrite IH. ring.
Qed.

(** Aligning a mantissa to a smaller exponent shifts it left and keeps
    the value. *)
Lemma shl_align_spec (m : positive) (e e' : Z) :
  e' <= e ->
  Z.pos (fst (shl_align m e e')) = Z.pos m * 2 ^ (e - e') /\
  snd (shl_align m e e') = e'.
Proof.
  intros H. unfold shl_align.
  destruct (e' - e) as [|d|d] eqn:E; cbn [fst snd].
  - replace (e - e') with 0 by lia. split; lia.
  - lia.
  - rewrite iter_xO. replace (e - e') with (Z.pos d) by lia. split; lia.
Qed.

(** A mantissa is never aligned to a greater exponent. *)
Lemma shl_align_id (m : positive) (e e' : Z) :
  e <= e' -> shl_align m e e' = (m, e).
Proof.
  intros H. unfold shl_align. destruct (e' - e) eqn:E; try reflexivity. lia.
Qed.

(** The iteration of [SpecFloat] is the iteration of the library. *)
Lemma iter_pos_iter {A} (f : A -> A) (n : positive) (x : A) :
  iter_pos f n x = Pos.iter f x n.
Proof.
  revert x. induction n as [n IH|n IH|]; intros x; cbn [iter_pos Pos.iter].
  - rewrite !IH. rewrite <- !Pos.iter_swap. reflexivity.
  - rewrite !IH. reflexivity.
  - reflexivity.
Qed.

(** Shifting out [n] zero bits loses nothing: the round and sticky bits
    stay clear. *)
Lemma shr_exact (m q : positive) (n : positive) :
  Z.pos q = Z.pos m * 2 ^ Z.pos n ->
  iter_pos shr_1 n (Build_shr_record (Z.pos q) false false)
  = Build_shr_record (Z.pos m) false false.
Proof.
  rewrite iter_pos_iter. revert q.
  induction n as [|n IH] using Pos.peano_ind; intros q Hq.
  - cbn. destruct q as [q|q|]; cbn in *; try lia. f_equal. lia.
  - rewrite Pos.iter_succ_r.
    rewrite Pos2Z.inj_succ, Z.pow_succ_r in Hq by lia.
    destruct q as [q|q|]; try lia. cbn [shr_1 orb].
    apply IH. lia.
Qed.

(** The exponent function of binary64. *)
Lemma fexp_eq (e : Z) : fexp prec emax e = fexp64 e.
Proof. reflexivity. Qed.

(** The binary logarithm of a shifted mantissa. *)
Lemma log2_shift (m : positive) (k : Z) : 0 <= k ->
  Z.log2 (Z.pos m * 2 ^ k) = Z.log2 (Z.pos m) + k.
Proof. intros. rewrite Z.log2_mul_pow2 by lia. lia. Qed.

(** Rounding is exact on the value of a float: a mantissa and an exponent of
    the value of the canonical pair [m], [e] round to that pair. *)
Lemma binary_round_exact (s : bool) (M : positive) (E : Z) (m : positive) (e : Z) :
  bounded prec emax m e = true ->
  Z.pos M * 2 ^ (E - Z.min E e) = Z.pos m * 2 ^ (e - Z.min E e) ->
  binary_round prec emax s M E = S754_finite s m e.
Proof.
  intros Hb Hv. unfold bounded, canonical_mantissa in Hb.
  apply andb_prop in Hb as [Hc He]. apply Z.eqb_eq in Hc. apply Z.leb_le in He.
  assert (Hd : Z.pos (digits2_pos M) + E = Z.pos (digits2_pos m) + e).
  { rewrite !digits2_log2.
    assert (H1 := log2_shift M (E - Z.min E e) ltac:(lia)).
    assert (H2 := log2_shift m (e - Z.min E e) ltac:(lia)).
    rewrite Hv in H1. lia. }
  unfold binary_round. rewrite Hd, Hc.
  destruct (Z_le_gt_dec E e) as [HEe|HEe].
  - (* the mantissa may have to be shifted right *)
    rewrite shl_align_id by lia.
    assert (HM : Z.pos M = Z.pos m * 2 ^ (e - E))
      by (rewrite Z.min_l, Z.sub_diag, Z.pow_0_r, Z.mul_1_r in Hv by lia; exact Hv).
    unfold binary_round_aux, shr_fexp. cbn [Zdigits2 shr_record_of_loc].
    rewrite Hd, Hc. unfold shr.
    destruct (e - E) as [|n|n] eqn:En; try lia.
    + assert (E = e) by lia. subst E.
      assert (M = m) by lia. subst M.
      cbn [shr_m loc_of_shr_record round_nearest_even Zdigits2 shr_record_of_loc].
      rewrite Hc, Z.sub_diag. cbn [shr_m].
      destruct (e <=? emax - prec) eqn:L; [reflexivity|apply Z.leb_gt in L; lia].
    + rewrite (shr_exact m M n HM).
      cbn [shr_m loc_of_shr_record round_nearest_even Zdigits2 shr_record_of_loc].
      replace (E + Z.pos n) with e by lia.
      rewrite Hc, Z.sub_diag. cbn [shr_m].
      destruct (e <=? emax - prec) eqn:L; [reflexivity|apply Z.leb_gt in L; lia].
  - destruct (shl_align_spec M E e ltac:(lia)) as [Hm He'].
    destruct (shl_align M E e) as [mz ez]. cbn [fst snd] in *. subst ez.
    assert (HM : Z.pos M * 2 ^ (E - e) = Z.pos m)
      by (rewrite Z.min_r, Z.sub_diag, Z.pow_0_r, Z.mul_1_r in Hv by lia; exact Hv).
    assert (mz = m) by lia. subst mz.
    unfold binary_round_aux, shr_fexp. cbn [Zdigits2 shr_record_of_loc].
    rewrite Hc, Z.sub_diag. unfold shr.
    cbn [shr_m loc_of_shr_record round_nearest_even Zdigits2 shr_record_of_loc].
    rewrite Hc, Z.sub_diag. cbn [shr_m].
    destruct (e <=? emax - prec) eqn:L; [reflexivity|apply Z.leb_gt in L; lia].
Qed.

(** No exponent of a float is below [-1074]. *)
Lemma bounded_emin (m : positive) (e : Z) :
  bounded prec emax m e = true -> -1074 <= e.
Proof.
  unfold bounded, canonical_mantissa. intros [Hc _]%andb_prop.
  apply Z.eqb_eq in Hc. rewrite fexp_eq in Hc. unfold fexp64 in Hc. lia.
Qed.

(** Splitting a power of two. *)
Lemma pow2_split (a b : Z) : 0 <= b -> b <= a -> 2 ^ a = 2 ^ (a - b) * 2 ^ b.
Proof. intros. rewrite <- Z.pow_add_r by lia. f_equal. lia. Qed.

(** A positive integer times a power of two that has the value of a
    canonical float rounds to that float. *)
Lemma binary_round_scaled (s : bool) (T : positive) (E : Z) (m : positive) (e : Z) :
  bounded prec emax m e = true -> -1074 <= E ->
  Z.pos T * 2 ^ (E + 1074) = Z.pos m * 2 ^ (e + 1074) ->
  binary_round prec emax s T E = S754_finite s m e.
Proof.
  intros Hb HE Hv. pose proof (bounded_emin m e Hb) as He.
  apply binary_round_exact; [exact Hb|].
  set (lo := Z.min E e).
  rewrite (pow2_split (E + 1074) (lo + 1074)) in Hv by lia.
  rewrite (pow2_split (e + 1074) (lo + 1074)) in Hv by lia.
  replace (E + 1074 - (lo + 1074)) with (E - lo) in Hv by lia.
  replace (e + 1074 - (lo + 1074)) with (e - lo) in Hv by lia.
  assert (0 < 2 ^ (lo + 1074)) by (apply Z.pow_pos_nonneg; lia).
  rewrite !Z.mul_assoc in Hv. apply Z.mul_reg_r in Hv; [exact Hv|lia].
Qed.

(** Two finite floats of one value are one float. *)
Lemma scaled_finite_inj (s s' : bool) (m m' : positive) (e e' : Z) :
  bounded prec emax m e = true -> bounded prec emax m' e' = true ->
  scaled (S754_finite s m e) = scaled (S754_finite s' m' e') ->
  S754_finite s m e = S754_finite s' m' e'.
Proof.
  intros Hb Hb' [= Hv].
  pose proof (bounded_emin m e Hb). pose proof (bounded_emin m' e' Hb').
  assert (0 < 2 ^ (e + 1074)) by (apply Z.pow_pos_nonneg; lia).
  assert (0 < 2 ^ (e' + 1074)) by (apply Z.pow_pos_nonneg; lia).
  assert (Hs : s = s') by (destruct s, s'; trivial; nia).
  subst s'.
  assert (Hm : Z.pos m * 2 ^ (e + 1074) = Z.pos m' * 2 ^ (e' + 1074))
    by (destruct s; [change (Z.neg m) with (- Z.pos m) in Hv;
                     change (Z.neg m') with (- Z.pos m') in Hv|]; lia).
  rewrite <- (binary_round_scaled s m e m e Hb) by (trivial; lia).
  now apply binary_round_scaled.
Qed.

(** Subtraction returns the float of the exact difference when there is
    one, and it is not zero. *)
Lemma sub_exact (X Y : spec_float) (x y : Z) (s : bool) (m : positive) (e : Z) :
  valid_binary X = true -> valid_binary Y = true ->
  bounded prec emax m e = true ->
  scaled X = Some x -> scaled Y = Some y ->
  scaled (S754_finite s m e) = Some (x - y) ->
  SF64sub X Y = S754_finite s m e.
Proof.
  intros HX HY Hb Hx Hy Hr.
  pose proof (bounded_emin m e Hb) as He.
  assert (Hp : 0 < 2 ^ (e + 1074)) by (apply Z.pow_pos_nonneg; lia).
  destruct X as [sx|sx| |sx mx ex]; try discriminate;
    destruct Y as [sy|sy| |sy my ey]; try discriminate;
    cbn [scaled] in Hx, Hy; injection Hx as <-; injection Hy as <-;
    cbn [valid_binary] in HX, HY; unfold SF64sub, SFsub.
  - cbn in Hr. injection Hr as Hr. destruct s; nia.
  - apply scaled_finite_inj; trivial. rewrite Hr. cbn [scaled]. f_equal.
    destruct sy; cbn [negb]; [change (Z.neg my) with (- Z.pos my)|
                              change (Z.neg my) with (- Z.pos my)]; ring.
  - apply scaled_finite_inj; trivial. rewrite Hr. cbn [scaled]. f_equal. ring.
  - pose proof (bounded_emin mx ex HX). pose proof (bounded_emin my ey HY).
    set (ez := Z.min ex ey).
    destruct (shl_align_spec mx ex ez ltac:(lia)) as [Hmx _].
    destruct (shl_align_spec my ey ez ltac:(lia)) as [Hmy _].
    set (ax := fst (shl_align mx ex ez)) in *.
    set (ay := fst (shl_align my ey ez)) in *.
    set (T := cond_Zopp sx (Z.pos ax) - cond_Zopp sy (Z.pos ay)).
    assert (HT : T * 2 ^ (ez + 1074)
                 = (if s then Z.neg m else Z.pos m) * 2 ^ (e + 1074)).
    { cbn [scaled] in Hr. injection Hr as ->. unfold T.
      rewrite (pow2_split (ex + 1074) (ez + 1074)) by lia.
      rewrite (pow2_split (ey + 1074) (ez + 1074)) by lia.
      replace (ex + 1074 - (ez + 1074)) with (ex - ez) by lia.
      replace (ey + 1074 - (ez + 1074)) with (ey - ez) by lia.
      destruct sx, sy; cbn [cond_Zopp];
        change (Z.neg mx) with (- Z.pos mx); change (Z.neg my) with (- Z.pos my);
        rewrite Hmx, Hmy; ring. }
    assert (Hz : 0 < 2 ^ (ez + 1074)) by (apply Z.pow_pos_nonneg; lia).
    unfold binary_normalize. fold T.
    destruct T as [|t|t].
    + destruct s; nia.
    + destruct s; [change (Z.neg m) with (- Z.pos m) in HT; nia|].
      apply binary_round_scaled; trivial; lia.
    + destruct s; [|nia].
      apply binary_round_scaled; trivial; [lia|].
      change (Z.neg t) with (- Z.pos t) in HT.
      change (Z.neg m) with (- Z.pos m) in HT. lia.
Qed.

(** The rational value of a float is its scaled value over [2^1074]. *)
Lemma unit_inv_eq : Z.pos unit_inv = 2 ^ 1074.
Proof. reflexivity. Qed.

Lemma exact_value_scaled (x : float) (v : Q) :
  exact_value x = Some v ->
  exists z, scaled (Prim2SF x) = Some z /\ (v == Qmake z unit_inv)%Q.
Proof.
  unfold exact_value. pose proof (Prim2SF_valid x) as Hx.
  destruct (Prim2SF x) as [s|s| |s m e]; try discriminate; intros [= <-].
  - exists 0. split; [reflexivity|]. reflexivity.
  - cbn [valid_binary] in Hx. pose proof (bounded_emin m e Hx) as He.
    eexists. split; [reflexivity|].
    set (n := if s then Z.neg m else Z.pos m).
    unfold Qeq. cbn [Qnum Qden]. rewrite unit_inv_eq.
    destruct (Z.leb_spec 0 e).
    + cbn [inject_Z Qnum Qden]. rewrite Z.pow_add_r by lia. ring.
    + cbn [Qnum Qden]. rewrite Z2Pos.id by (apply Z.pow_pos_nonneg; lia).
      rewrite <- Z.mul_assoc, <- Z.pow_add_r by lia. do 2 f_equal. lia.
Qed.

Lemma has_value_scaled (x : float) (q : Q) :
  has_value x q ->
  exists z, scaled (Prim2SF x) = Some z /\ (q == Qmake z unit_inv)%Q.
Proof.
  intros (v & Hv & Hq). destruct (exact_value_scaled x v Hv) as (z & Hz & E).
  exists z. split; [exact Hz|]. now rewrite <- Hq.
Qed.

(** Adding the integer [k] to a value adds [k * 2^1074] to the scaled
    value. *)
Lemma scaled_shift (z z' k : Z) (q : Q) :
  (q == Qmake z unit_inv)%Q -> (q + inject_Z k == Qmake z' unit_inv)%Q ->
  z' = z + k * 2 ^ 1074.
Proof.
  intros Hq H. rewrite Hq in H. revert H.
  unfold Qeq, Qplus, inject_Z. cbn [Qnum Qden].
  rewrite Pos2Z.inj_mul, <- unit_inv_eq. generalize (Z.pos unit_inv) (Pos2Z.is_pos unit_inv).
  intros P HP H. nia.
Qed.

(** ** The basal metabolic rate *)

(** The test on the gender. *)
Ltac by_ascii_cases c :=
  destruct c as [[] [] [] [] [] [] [] []]; reflexivity.

Lemma lower_m c : Ascii.eqb (lower_ascii c) "m" = same_letter c "m".
Proof. by_ascii_cases c. Qed.
Lemma lower_a c : Ascii.eqb (lower_ascii c) "a" = same_letter c "a".
Proof. by_ascii_cases c. Qed.
Lemma lower_l c : Ascii.eqb (lower_ascii c) "l" = same_letter c "l".
Proof. by_ascii_cases c. Qed.
Lemma lower_e c : Ascii.eqb (lower_ascii c) "e" = same_letter c "e".
Proof. by_ascii_cases c. Qed.

(** The test of the source, [gender.lower() == "male"], is case-insensitive
    equality with "male". *)
Lemma lower_is_male (gender : string) :
  String.eqb (lower gender) "male" = caseless_eqb gender "male".
Proof.
  destruct gender as [|c1 [|c2 [|c3 [|c4 [|c5 g]]]]];
    cbn [lower String.eqb caseless_eqb];
    rewrite ?lower_m, ?lower_a, ?lower_l, ?lower_e;
    repeat match goal with
           | |- context [same_letter ?c ?d] => destruct (same_letter c d)
           end;
    reflexivity.
Qed.

Example caseless_male : map (fun g => caseless_eqb g "male")
    ["male"; "MALE"; "Male"; "mAlE"; "female"; ""; "males"; " male"; "m\le"]
  = [true; true; true; true; false; false; false; false; false].
Proof. reflexivity. Qed.

(** The conversion of the age: the rounded shift is within one of the
    quotient, and goes up or down as the remainder compares with a half. *)
Lemma shift_round_half_even_bounds (n k : Z) :
  0 <= n -> 0 < k ->
  let q := n / 2 ^ k in
  let r := n mod 2 ^ k in
  let m := shift_round_half_even n k in
  q <= m <= q + 1 /\
  (m = q + 1 -> 2 ^ (k - 1) <= r) /\
  (m = q -> r <= 2 ^ (k - 1)) /\
  (r = 2 ^ (k - 1) -> Z.even m = true).
Proof.
  intros Hn Hk. cbv zeta. unfold shift_round_half_even.
  destruct (Z.leb_spec k 0) as [|_]; [lia|].
  rewrite Z.shiftr_div_pow2, !Z.shiftl_mul_pow2, Z.mul_1_l by lia.
  assert (Hp : 0 < 2 ^ k) by (apply Z.pow_pos_nonneg; lia).
  replace (n - n / 2 ^ k * 2 ^ k) with (n mod 2 ^ k)
    by (rewrite Z.mod_eq by lia; ring).
  set (q := n / 2 ^ k). set (r := n mod 2 ^ k). set (h := 2 ^ (k - 1)).
  destruct (Z.ltb_spec r h); [repeat split; lia|].
  destruct (Z.ltb_spec h r); [repeat split; lia|].
  destruct (Z.even q) eqn:E; repeat split; try lia; intros _; trivial.
  rewrite Z.even_add, E. reflexivity.
Qed.

(** The bit length of a number between two powers of two. *)
Lemma bit_length_pos (m b : Z) :
  0 <= b -> 2 ^ b <= m < 2 ^ (b + 1) -> bit_length m = b + 1.
Proof.
  intros Hb Hm. unfold bit_length.
  assert (0 < 2 ^ b) by (apply Z.pow_pos_nonneg; lia).
  destruct (Z.eqb_spec m 0); [lia|].
  rewrite Z.abs_eq by lia.
  rewrite (Z.log2_unique m b); lia.
Qed.

(** The overflow test of the conversion fires exactly from
    [int_overflow_bound] on. *)
Lemma int_to_float_overflow_test (a : Z) :
  0 <= a ->
  let sh := Z.max 0 (bit_length a - 53) in
  (1024 <? bit_length (shift_round_half_even a sh) + sh)
  = (int_overflow_bound <=? a).
Proof.
  intros Ha; cbv zeta.
  destruct (Z.eq_dec a 0) as [->|Hnz]; [reflexivity|].
  pose proof (Z.log2_spec a ltac:(lia)) as Hlog.
  pose proof (Z.log2_nonneg a) as HL.
  set (L := Z.log2 a) in *.
  rewrite (bit_length_pos a L) by (trivial; replace (L + 1) with (Z.succ L) by lia; trivial).
  assert (B53 : 2 ^ 53 < int_overflow_bound) by reflexivity.
  destruct (Z_le_gt_dec L 52) as [Hs|Hb].
  - rewrite Z.max_l by lia.
    unfold shift_round_half_even; cbn [Z.leb Z.compare].
    rewrite (bit_length_pos a L) by (trivial; replace (L + 1) with (Z.succ L) by lia; trivial).
    assert (2 ^ Z.succ L <= 2 ^ 53) by (apply Z.pow_le_mono_r; lia).
    destruct (Z.ltb_spec 1024 (L + 1 + 0)), (Z.leb_spec int_overflow_bound a); lia.
  - rewrite Z.max_r by lia.
    set (sh := L + 1 - 53).
    destruct (shift_round_half_even_bounds a sh Ha ltac:(lia)) as (Hm & Hup & Hdn & Hev).
    set (m := shift_round_half_even a sh) in *.
    assert (Hp : 0 < 2 ^ sh) by (apply Z.pow_pos_nonneg; lia).
    assert (HLs : 2 ^ L = 2 ^ 52 * 2 ^ sh)
      by (rewrite <- Z.pow_add_r by lia; f_equal; lia).
    assert (HLs' : 2 ^ Z.succ L = 2 ^ 53 * 2 ^ sh)
      by (rewrite <- Z.pow_add_r by lia; f_equal; lia).
    assert (Hq1 : 2 ^ 52 <= a / 2 ^ sh)
      by (apply Z.div_le_lower_bound; lia).
    assert (Hq2 : a / 2 ^ sh < 2 ^ 53)
      by (apply Z.div_lt_upper_bound; lia).
    assert (Hbl : bit_length m = 53 /\ m < 2 ^ 53 \/ bit_length m = 54 /\ m = 2 ^ 53).
    { destruct (Z.eq_dec m (2 ^ 53)) as [E|E].
      - right. split; [|trivial]. rewrite E. reflexivity.
      - left. split; [|lia]. apply (bit_length_pos m 52); lia. }
    destruct (Z_lt_le_dec L 1023) as [H1|H1]; [|destruct (Z.eq_dec L 1023) as [H2|H2]].
    + assert (2 ^ Z.succ L <= 2 ^ 1023) by (apply Z.pow_le_mono_r; lia).
      assert (2 ^ 1023 < int_overflow_bound) by reflexivity.
      destruct (Z.ltb_spec 1024 (bit_length m + sh)),
        (Z.leb_spec int_overflow_bound a); lia.
    + assert (Hsh : sh = 971) by lia.
      pose proof (Z.div_mod a (2 ^ sh) ltac:(lia)) as Hdm.
      pose proof (Z.mod_pos_bound a (2 ^ sh) Hp) as Hr.
      rewrite Hsh in *.
      assert (Hodd : forall x, x = 2 ^ 53 - 1 -> Z.even x = false)
        by (intros x ->; reflexivity).
      specialize (Hodd m).
      unfold int_overflow_bound.
      change (Z.pow_pos 2 971) with (2 ^ 971) in *.
      set (q := a / 2 ^ 971) in *. set (r := a mod 2 ^ 971) in *.
      change (971 - 1) with 970 in *.
      assert (E1 : 2 ^ 971 = 2 * 2 ^ 970) by reflexivity.
      assert (E2 : 2 ^ 1024 = 2 ^ 54 * 2 ^ 970) by reflexivity.
      assert (0 < 2 ^ 970) by reflexivity.
      rewrite E1 in *. rewrite E2.
      set (H970 := 2 ^ 970) in *.
      change (2 ^ 52) with 4503599627370496 in *.
      change (2 ^ 53) with 9007199254740992 in *.
      change (2 ^ 54) with 18014398509481984 in *.
      destruct Hbl as [[-> Hlt]|[-> Heq]].
      * destruct (Z.ltb_spec 1024 (53 + 971)); [lia|].
        destruct (Z.leb_spec (18014398509481984 * H970 - H970) a); [|reflexivity].
        exfalso.
        destruct (Z.eq_dec m q) as [Emq|Emq].
        -- specialize (Hdn Emq).
           destruct (Z.eq_dec r H970) as [Er|Er].
           ++ specialize (Hev Er).
              assert (q <> 9007199254740991) by (intros Eq; rewrite Hodd in Hev; [discriminate|lia]).
              nia.
           ++ nia.
        -- nia.
      * destruct (Z.ltb_spec 1024 (54 + 971)); [|lia].
        destruct (Z.leb_spec (18014398509481984 * H970 - H970) a); [reflexivity|].
        exfalso. assert (m = q + 1) by lia. specialize (Hup ltac:(assumption)). nia.
    + assert (2 ^ 1024 <= 2 ^ L) by (apply Z.pow_le_mono_r; lia).
      assert (int_overflow_bound < 2 ^ 1024) by reflexivity.
      destruct (Z.ltb_spec 1024 (bit_length m + sh)),
        (Z.leb_spec int_overflow_bound a); lia.
Qed.

(** The canonical float of a positive integer below [2^53]. *)
Lemma small_int_canonical (a : positive) :
  Z.pos a < 2 ^ 53 ->
  exists m e,
    bounded prec emax m e = true /\ e <= 0 /\
    Z.pos m = Z.pos a * 2 ^ (- e).
Proof.
  intros Ha.
  pose proof (Z.log2_spec (Z.pos a) ltac:(lia)) as Hl.
  pose proof (Z.log2_nonneg (Z.pos a)) as H0.
  set (L := Z.log2 (Z.pos a)) in *.
  assert (HL : L < 53) by (apply Z.log2_lt_pow2; lia).
  assert (Hp : 0 < 2 ^ (52 - L)) by (apply Z.pow_pos_nonneg; lia).
  exists (Z.to_pos (Z.pos a * 2 ^ (52 - L))), (L - 52).
  assert (Hm : Z.pos (Z.to_pos (Z.pos a * 2 ^ (52 - L))) = Z.pos a * 2 ^ (52 - L))
    by (apply Z2Pos.id; lia).
  split; [|split; [lia|rewrite Hm; f_equal; f_equal; lia]].
  unfold bounded, canonical_mantissa. rewrite digits2_log2, Hm.
  rewrite log2_shift by lia. fold L. rewrite fexp_eq. unfold fexp64.
  change (emax - prec) with 971.
  apply andb_true_intro. split; [apply Z.eqb_eq|apply Z.leb_le]; lia.
Qed.

(** [int_to_float] on such an integer. *)
Lemma of_small_int (a : positive) :
  Z.pos a < 2 ^ 53 ->
  exists m e,
    Prim2SF (Z.ldexp (of_uint63 (Uint63.of_Z (Z.pos a))) 0) = S754_finite false m e /\
    e <= 0 /\ Z.pos m = Z.pos a * 2 ^ (- e).
Proof.
  intros Ha. destruct (small_int_canonical a Ha) as (m & e & Hb & He & Hm).
  exists m, e. split; [|auto].
  rewrite Z_ldexp_spec, of_uint63_spec, Uint63.of_Z_spec.
  assert (Hw : 2 ^ 53 < Uint63.wB) by reflexivity.
  rewrite Z.mod_small by lia.
  cbn [binary_normalize].
  assert (E : binary_round prec emax false a 0 = S754_finite false m e).
  { apply binary_round_exact; [exact Hb|].
    rewrite Z.min_r by lia. rewrite Z.sub_diag, Z.pow_0_r, Z.mul_1_r.
    rewrite Hm. now rewrite Z.sub_0_l. }
  rewrite E. cbn [SFldexp]. rewrite Z.add_0_r.
  apply binary_round_exact; [exact Hb|]. now rewrite Z.min_id.
Qed.

(** An [int] of magnitude below [2^53] converts to the float of its exact
    value. *)
Lemma int_to_float_exact (n : Z) :
  Z.abs n < 2 ^ 53 ->
  exists f, int_to_float n = Ok f /\ has_value f (inject_Z n).
Proof.
  intros Hn. unfold int_to_float.
  assert (Hbl : bit_length (Z.abs n) <= 53).
  { unfold bit_length. destruct (Z.eqb_spec (Z.abs n) 0); [lia|].
    rewrite Z.abs_idemp.
    assert (Z.log2 (Z.abs n) < 53) by (apply Z.log2_lt_pow2; lia). lia. }
  rewrite Z.max_l by lia.
  change (shift_round_half_even (Z.abs n) 0) with (Z.abs n).
  destruct (Z.ltb_spec 1024 (bit_length (Z.abs n) + 0)); [lia|].
  eexists. split; [reflexivity|].
  destruct n as [|a|a]; cbn [Z.abs Z.ltb Z.compare].
  - exists 0%Q. split; reflexivity.
  - destruct (of_small_int a Hn) as (m & e & E & He & Hm).
    unfold has_value, exact_value. rewrite E.
    eexists. split; [reflexivity|].
    destruct (Z.leb_spec 0 e).
    + assert (e = 0) by lia. subst e. cbn in Hm.
      unfold Qeq, inject_Z; cbn [Qnum Qden]. lia.
    + unfold Qeq, inject_Z; cbn [Qnum Qden].
      rewrite Z2Pos.id by (apply Z.pow_pos_nonneg; lia). lia.
  - destruct (of_small_int a Hn) as (m & e & E & He & Hm).
    unfold has_value, exact_value. rewrite opp_spec, E. cbn [SFopp negb].
    eexists. split; [reflexivity|].
    change (Z.neg m) with (- Z.pos m). change (Z.neg a) with (- Z.pos a).
    destruct (Z.leb_spec 0 e).
    + assert (e = 0) by lia. subst e. cbn in Hm.
      unfold Qeq, inject_Z; cbn [Qnum Qden]. lia.
    + unfold Qeq, inject_Z; cbn [Qnum Qden].
      rewrite Z2Pos.id by (apply Z.pow_pos_nonneg; lia). lia.
Qed.

(** The conversion returns below the bound and raises from it on. *)
Lemma int_to_float_range (n : Z) :
  (Z.abs n < int_overflow_bound -> exists f, int_to_float n = Ok f) /\
  (int_overflow_bound <= Z.abs n -> int_to_float n = Raise OverflowError).
Proof.
  unfold int_to_float.
  rewrite (int_to_float_overflow_test (Z.abs n) (Z.abs_nonneg n)).
  destruct (Z.leb_spec int_overflow_bound (Z.abs n)); split; intros; try lia.
  - reflexivity.
  - eexists; reflexivity.
Qed.

(** C1, as the code has it: with [age] the float that the integer
    [age_years] converts to (its exact value, for a magnitude below [2^53]),
    the result is [10*weight + 6.25*height - 5*age + 5] when the gender is
    case-insensitively equal to "male" and
    [10*weight + 6.25*height - 5*age - 161] for every other text.  No weight,
    height or gender makes the function raise, and no age of magnitude below
    [2^1024 - 2^970] does, negative ones and zero included; from that
    magnitude on the conversion of the age raises [OverflowError]. *)
Theorem calculate_bmr_spec
  (weight_kg height_cm : float) (age_years : Z) (gender : string) :
  (Z.abs age_years < int_overflow_bound ->
   exists age,
     int_to_float age_years = Ok age /\
     (Z.abs age_years < 2 ^ 53 -> has_value age (inject_Z age_years)) /\
     calculate_bmr_mifflin_st_jeor weight_kg height_cm age_years gender
     = Ok (if caseless_eqb gender "male"
           then 10 * weight_kg + 6.25 * height_cm - 5 * age + 5
           else 10 * weight_kg + 6.25 * height_cm - 5 * age - 161)%float) /\
  (int_overflow_bound <= Z.abs age_years ->
   calculate_bmr_mifflin_st_jeor weight_kg height_cm age_years gender
   = Raise OverflowError).
Proof.
  unfold calculate_bmr_mifflin_st_jeor.
  destruct (int_to_float_range age_years) as [Hin Hout].
  split; intros Hage.
  - destruct (Hin Hage) as [age Eage]. exists age. split; [exact Eage|]. split.
    + intros Hsmall.
      destruct (int_to_float_exact age_years Hsmall) as (f & Ef & Hf).
      rewrite Eage in Ef. now injection Ef as ->.
    + rewrite Eage. cbn [rbind]. rewrite lower_is_male.
      destruct (caseless_eqb gender "male"); reflexivity.
  - rewrite (Hout Hage). reflexivity.
Qed.

Lemma calculate_bmr_spec_witness :
  Z.abs (-3) < int_overflow_bound /\
  exists age,
    int_to_float (-3) = Ok age /\
    (Z.abs (-3) < 2 ^ 53 -> has_value age (inject_Z (-3))) /\
    calculate_bmr_mifflin_st_jeor (-80) 0 (-3) "MaLe"
    = Ok (if caseless_eqb "MaLe" "male"
          then 10 * (-80) + 6.25 * 0 - 5 * age + 5
          else 10 * (-80) + 6.25 * 0 - 5 * age - 161)%float.
Proof.
  split; [reflexivity|].
  exact (proj1 (calculate_bmr_spec (-80) 0 (-3) "MaLe") eq_refl).
Defined.

(** C1, as the specification words it, fails: an age of [2^1024] makes the
    function raise. *)
Lemma calculate_bmr_raises_on_huge_age :
  calculate_bmr_mifflin_st_jeor 70 170 (2 ^ 1024) "male" = Raise OverflowError.
Proof. reflexivity. Qed.

Example bmr_female : calculate_bmr_mifflin_st_jeor 60 165 25 "other" = Ok 1345.25%float.
Proof. reflexivity. Qed.

Example bmr_male_upper : calculate_bmr_mifflin_st_jeor 80 180 30 "MALE" = Ok 1780%float.
Proof. reflexivity. Qed.

(** ** The difference between the two formulas *)

(** Where neither [base + 5] nor [base - 161] is rounded, the two differ by
    166 exactly. *)
Lemma gap_exact (base : float) (b : Q) :
  has_value base b ->
  has_value (base + 5) (b + 5) ->
  has_value (base - 161) (b - 161) ->
  gap base = 166%float.
Proof.
  intros Hb H5 H161.
  destruct (has_value_scaled _ _ Hb) as (z0 & _ & E0).
  destruct (has_value_scaled _ _ H5) as (z1 & S1 & E1).
  destruct (has_value_scaled _ _ H161) as (z2 & S2 & E2).
  assert (Hz1 : z1 = z0 + 5 * 2 ^ 1074) by (apply (scaled_shift z0 z1 5 b); trivial).
  assert (Hz2 : z2 = z0 + (-161) * 2 ^ 1074) by (apply (scaled_shift z0 z2 (-161) b); trivial).
  apply Prim2SF_inj. unfold gap. rewrite sub_spec.
  change (Prim2SF 166) with (S754_finite false 5840605766746112 (-45)).
  apply (sub_exact _ _ z1 z2); trivial; try apply Prim2SF_valid.
  cbn [scaled]. f_equal. rewrite Hz1, Hz2.
  change (-45 + 1074) with 1029.
  replace (2 ^ 1074) with (2 ^ 45 * 2 ^ 1029) by reflexivity.
  generalize (2 ^ 1029). intros. change (2 ^ 45) with 35184372088832. lia.
Qed.

(** C9, as the code has it: the result for "male" minus the result for
    "female" is 166 exactly whenever neither branch rounds, that is, whenever
    the floats [base + 5] and [base - 161] have the exact values of these
    sums, for [base] the common part [10*weight + 6.25*height - 5*age] as
    computed. *)
Theorem bmr_gender_gap
  (weight_kg height_cm : float) (age_years : Z) (age : float) (b : Q) :
  int_to_float age_years = Ok age ->
  has_value (10 * weight_kg + 6.25 * height_cm - 5 * age) b ->
  has_value (10 * weight_kg + 6.25 * height_cm - 5 * age + 5) (b + 5) ->
  has_value (10 * weight_kg + 6.25 * height_cm - 5 * age - 161) (b - 161) ->
  exists m f,
    calculate_bmr_mifflin_st_jeor weight_kg height_cm age_years "male" = Ok m /\
    calculate_bmr_mifflin_st_jeor weight_kg height_cm age_years "female" = Ok f /\
    (m - f)%float = 166%float.
Proof.
  intros Hage Hb H5 H161. unfold calculate_bmr_mifflin_st_jeor.
  rewrite Hage. cbn [rbind lower String.eqb]. cbn.
  do 2 eexists. repeat split. now apply (gap_exact _ b).
Qed.

Lemma bmr_gender_gap_witness :
  int_to_float 30 = Ok 30%float /\
  has_value (10 * 70.3 + 6.25 * 175.3 - 5 * 30) (13189 # 8) /\
  has_value (10 * 70.3 + 6.25 * 175.3 - 5 * 30 + 5) ((13189 # 8) + 5) /\
  has_value (10 * 70.3 + 6.25 * 175.3 - 5 * 30 - 161) ((13189 # 8) - 161) /\
  exists m f,
    calculate_bmr_mifflin_st_jeor 70.3 175.3 30 "male" = Ok m /\
    calculate_bmr_mifflin_st_jeor 70.3 175.3 30 "female" = Ok f /\
    (m - f)%float = 166%float.
Proof.
  assert (Hb : has_value (10 * 70.3 + 6.25 * 175.3 - 5 * 30) (13189 # 8))
    by (eexists; split; [vm_compute; reflexivity|vm_compute; reflexivity]).
  assert (H5 : has_value (10 * 70.3 + 6.25 * 175.3 - 5 * 30 + 5) ((13189 # 8) + 5))
    by (eexists; split; [vm_compute; reflexivity|vm_compute; reflexivity]).
  assert (H161 : has_value (10 * 70.3 + 6.25 * 175.3 - 5 * 30 - 161) ((13189 # 8) - 161))
    by (eexists; split; [vm_compute; reflexivity|vm_compute; reflexivity]).
  repeat (split; [first [reflexivity|assumption]|]).
  exact (bmr_gender_gap 70.3 175.3 30 30 (13189 # 8) eq_refl Hb H5 H161).
Defined.

(** C9, as the specification words it, fails: at a weight of 4.24 kg, a
    height of 31.6 cm and an age of 93 years the two results differ by
    [166.00000000000003], the float next above 166. *)
Lemma bmr_gender_gap_not_always :
  (0 <? 31.6)%float = true /\ 0 < 93 /\
  exists m f,
    calculate_bmr_mifflin_st_jeor 4.24 31.6 93 "male" = Ok m /\
    calculate_bmr_mifflin_st_jeor 4.24 31.6 93 "female" = Ok f /\
    (m - f)%float = 0x1.4c00000000001p7%float /\
    (m - f =? 166)%float = false.
Proof.
  repeat split. do 2 eexists. repeat split.
Qed.

(** At a weight of [1e17] kg the two results differ by 128. *)
Example bmr_gender_gap_huge :
  exists m f,
    calculate_bmr_mifflin_st_jeor 1e17 1 1 "male" = Ok m /\
    calculate_bmr_mifflin_st_jeor 1e17 1 1 "female" = Ok f /\
    (m - f)%float = 128%float.
Proof.
  do 2 eexists. repeat split.
Qed.

(** ** A grid of bases *)

(** [all_below] checks every integer of its range. *)
Lemma all_below_spec (P : Z -> bool) (n : nat) (j : Z) :
  all_below n j P = true ->
  forall i, j * 2 ^ Z.of_nat n <= i < (j + 1) * 2 ^ Z.of_nat n -> P i = true.
Proof.
  revert j. induction n as [|n IH]; intros j H i Hi.
  - cbn in Hi. replace i with j by lia. exact H.
  - cbn [all_below] in H. apply andb_prop in H as [H0 H1].
    rewrite Nat2Z.inj_succ, Z.pow_succ_r in Hi by lia.
    assert (0 < 2 ^ Z.of_nat n) by (apply Z.pow_pos_nonneg; lia).
    destruct (Z_lt_le_dec i ((2 * j + 1) * 2 ^ Z.of_nat n)).
    + apply (IH _ H0). rewrite Z.double_spec. nia.
    + apply (IH _ H1). rewrite Z.succ_double_spec. nia.
Qed.

(** Checked one by one: every multiple of 1/8 of magnitude below 8192 is a
    [base] on which the two branches differ by 166 exactly. *)
Lemma gap_on_eighths (j : Z) :
  - 2 ^ 16 <= j < 2 ^ 16 -> gap (eighth j) = 166%float.
Proof.
  intros Hj. apply FloatAxioms.Leibniz.eqb_spec. change (gap_is_166 j = true).
  assert (H : all_below 16 (-1) gap_is_166 && all_below 16 0 gap_is_166 = true)
    by (vm_compute; reflexivity).
  apply andb_prop in H as [Hneg Hpos].
  destruct (Z_lt_le_dec j 0).
  - apply (all_below_spec _ _ _ Hneg). change (2 ^ Z.of_nat 16) with (2 ^ 16). lia.
  - apply (all_below_spec _ _ _ Hpos). change (2 ^ Z.of_nat 16) with (2 ^ 16). lia.
Qed.

(** ** The worked example of the pipeline *)

(** C4, as the code computes it: for 180 cm, 80 kg, 30 years, "male" and
    "moderate" the unrounded BMR is [10*80 + 6.25*180 - 5*30 + 5 = 1780] and
    the unrounded TDEE is [1780 * 1.55 = 2759]; the carbohydrates are
    [(2759 - 1152) / 4 = 401.75]; the rounded result is 2759 calories, 144 g of
    protein, 64 g of fat and 402 g of carbohydrates.  Without the save flag
    the handler leaves the disk alone. *)
Theorem calculate_worked_example
  (json_loads : string -> option json) (json_dumps : json -> string)
  (name utcnow : string) (fs : filesystem) :
  calculate_bmr_mifflin_st_jeor 80 180 30 "male" = Ok 1780%float /\
  (1780 * activity_multiplier "moderate")%float = 2759%float /\
  Macros.carb_g (compute_macros 2759 80) = 401.75%float /\
  (exists r,
     calculate json_loads json_dumps name 180 80 30 "male" "moderate" None utcnow fs
     = (Ok r, fs) /\ result_ r = example_result /\ saved r = false).
Proof.
  repeat split. eexists. repeat split.
Qed.

(** C4, as the specification words it, fails: the BMR of the example is
    not 1692.5, its TDEE is not 2623.375, and the rounded calories and
    carbohydrates are not 2623 and 368. *)
Lemma calculate_worked_example_not_as_specified :
  exists b r,
    calculate_bmr_mifflin_st_jeor 80 180 30 "male" = Ok b /\
    (b =? 1692.5)%float = false /\
    (b * activity_multiplier "moderate" =? 2623.375)%float = false /\
    fst (calculate (fun _ => None) (fun _ => "") "" 180 80 30 "male" "moderate"
           None "" empty_disk) = Ok r /\
    (Result.calories (result_ r) =? 2623) = false /\
    (Result.carb_g (result_ r) =? 368) = false.
Proof.
  do 2 eexists. repeat split.
Qed.

(** ** Rounding for display *)

(** The rounded shift of a mantissa is the nearest integer to the dyadic
    number, ties to even. *)
Lemma nearest_ties_even_dyadic (s : bool) (m : positive) (k : Z) :
  0 < k ->
  let n := if s then Z.neg m else Z.pos m in
  let r := shift_round_half_even (Z.pos m) k in
  nearest_ties_even (Qmake n (Z.to_pos (2 ^ k))) (if s then - r else r).
Proof.
  intros Hk; cbv zeta.
  destruct (shift_round_half_even_bounds (Z.pos m) k ltac:(lia) Hk)
    as (Hm & Hup & Hdn & Hev).
  set (r := shift_round_half_even (Z.pos m) k) in *.
  assert (Hp : 0 < 2 ^ k) by (apply Z.pow_pos_nonneg; lia).
  assert (Hd : 2 ^ k = 2 * 2 ^ (k - 1))
    by (rewrite <- Z.pow_succ_r by lia; f_equal; lia).
  pose proof (Z.div_mod (Z.pos m) (2 ^ k) ltac:(lia)) as Hdm.
  pose proof (Z.mod_pos_bound (Z.pos m) (2 ^ k) Hp) as Hr.
  assert (HD : Z.pos (Z.to_pos (2 ^ k)) = 2 ^ k) by (apply Z2Pos.id; lia).
  set (D := Z.to_pos (2 ^ k)) in *.
  set (q0 := Z.pos m / 2 ^ k) in *. set (rem := Z.pos m mod 2 ^ k) in *.
  set (h := 2 ^ (k - 1)) in *. set (d := 2 ^ k) in *.
  assert (HA : 2 * Z.abs (Z.pos m - r * d) <= d).
  { destruct (Z.eq_dec r q0) as [E|E].
    - specialize (Hdn E). rewrite E. lia.
    - assert (E' : r = q0 + 1) by lia. specialize (Hup E'). rewrite E'. lia. }
  assert (HB : 2 * Z.abs (Z.pos m - r * d) = d -> Z.even r = true).
  { intros Ht. apply Hev.
    destruct (Z.eq_dec r q0) as [E|E].
    - rewrite E in Ht. lia.
    - assert (E' : r = q0 + 1) by lia. rewrite E' in Ht. lia. }
  unfold nearest_ties_even, Qminus, Qplus, Qopp, inject_Z, Qabs, Qle, Qeq.
  cbn [Qnum Qden]. rewrite Pos.mul_1_r, HD, !Z.mul_1_r, !Z.mul_1_l.
  destruct s.
  - rewrite Z.even_opp. change (Z.neg m) with (- Z.pos m).
    replace (- Z.pos m + - - r * d) with (- (Z.pos m - r * d)) by ring.
    rewrite Z.abs_opp. split; [lia|intros; apply HB; lia].
  - replace (Z.pos m + - r * d) with (Z.pos m - r * d) by ring.
    split; [lia|intros; apply HB; lia].
Qed.

(** An integer is its own nearest integer. *)
Lemma nearest_ties_even_integer (r : Z) : nearest_ties_even (inject_Z r) r.
Proof.
  unfold nearest_ties_even, Qminus, Qplus, Qopp, inject_Z, Qabs, Qle, Qeq.
  cbn [Qnum Qden]. replace (r * 1 + - r * 1) with 0 by ring.
  split; [discriminate|discriminate].
Qed.

(** Where [round] returns, it returns the round-half-to-even of the exact
    value of its argument. *)
Lemma round_rounds_to (x : float) (r : Z) : Py.round x = Ok r -> rounds_to x r.
Proof.
  unfold Py.round, rounds_to, exact_value.
  destruct (Prim2SF x) as [s|s| |s m e]; try discriminate; intros [= <-].
  - exists 0%Q. split; [reflexivity|]. apply (nearest_ties_even_integer 0).
  - eexists; split; [reflexivity|]. unfold round_half_even.
    destruct (Z.leb_spec 0 e) as [He|He].
    + replace ((if s then Z.neg m else Z.pos m) * 2 ^ e)
        with (if s then - (Z.pos m * 2 ^ e) else Z.pos m * 2 ^ e)
        by (destruct s; [change (Z.neg m) with (- Z.pos m); ring|reflexivity]).
      apply nearest_ties_even_integer.
    + apply nearest_ties_even_dyadic. lia.
Qed.

(** [round] returns on every finite float. *)
Lemma round_total (x : float) :
  (exists q, exact_value x = Some q) -> exists r, Py.round x = Ok r.
Proof.
  unfold Py.round, exact_value.
  destruct (Prim2SF x); intros [q [=]]; eexists; reflexivity.
Qed.

Example round_halves :
  map Py.round [0.5; 1.5; 2.5; 3.5; -0.5; -1.5; -2.5; 2.4; 2.6; 367.84375]%float
  = map Ok [0; 2; 2; 4; 0; -2; -2; 2; 3; 368].
Proof. reflexivity. Qed.

(** C8: when [calculate] returns, the calories, the protein, fat and
    carbohydrate grams and the displayed BMR are the nearest integers to the
    exact unrounded values, and where such a value lies exactly halfway
    between two integers the reported integer is the even one. *)
Theorem calculate_rounds_half_even
  (json_loads : string -> option json) (json_dumps : json -> string)
  (name : string) (height_cm weight_kg : float) (age_years : Z)
  (gender activity_level : string) (save : option string) (utcnow : string)
  (fs fs' : filesystem) (r : response) :
  calculate json_loads json_dumps name height_cm weight_kg age_years gender
    activity_level save utcnow fs = (Ok r, fs') ->
  exists bmr,
    calculate_bmr_mifflin_st_jeor weight_kg height_cm age_years gender = Ok bmr /\
    let tdee := (bmr * activity_multiplier activity_level)%float in
    let macros := compute_macros tdee weight_kg in
    rounds_to tdee (Result.calories (result_ r)) /\
    rounds_to (Macros.protein_g macros) (Result.protein_g (result_ r)) /\
    rounds_to (Macros.fat_g macros) (Result.fat_g (result_ r)) /\
    rounds_to (Macros.carb_g macros) (Result.carb_g (result_ r)) /\
    rounds_to bmr (Result.bmr (result_ r)).
Proof.
  unfold calculate, bind, lift, ret.
  destruct (calculate_bmr_mifflin_st_jeor _ _ _ _) as [bmr|]; [|discriminate].
  set (tdee := (bmr * activity_multiplier activity_level)%float).
  set (macros := compute_macros tdee weight_kg).
  destruct (Py.round tdee) as [c|] eqn:Ec; [|discriminate].
  destruct (Py.round (Macros.protein_g macros)) as [p|] eqn:Ep; [|discriminate].
  destruct (Py.round (Macros.fat_g macros)) as [f|] eqn:Ef; [|discriminate].
  destruct (Py.round (Macros.carb_g macros)) as [g|] eqn:Eg; [|discriminate].
  destruct (Py.round bmr) as [b|] eqn:Eb; [|discriminate].
  intros H. exists bmr. split; [reflexivity|].
  assert (Hr : result_ r
               = {| Result.calories := c; Result.protein_g := p;
                    Result.fat_g := f; Result.carb_g := g; Result.bmr := b;
                    Result.activity_multiplier := activity_multiplier activity_level |}).
  { destruct save as [flag|].
    - destruct (save_user_entry _ _ _ _) as [[[]|] fs1]; [|discriminate].
      injection H as <- _. reflexivity.
    - injection H as <- _. reflexivity. }
  rewrite Hr. cbn. repeat split; now apply round_rounds_to.
Qed.

Lemma calculate_rounds_half_even_witness :
  calculate (fun _ => None) (fun _ => "") "" 2 2.5 30 "male" "moderate" None ""
    empty_disk = (Ok halfway_response, empty_disk) /\
  exists bmr,
    calculate_bmr_mifflin_st_jeor 2.5 2 30 "male" = Ok bmr /\
    rounds_to (bmr * activity_multiplier "moderate")%float (-167) /\
    rounds_to (Macros.protein_g
                 (compute_macros (bmr * activity_multiplier "moderate") 2.5)) 4 /\
    rounds_to (Macros.fat_g
                 (compute_macros (bmr * activity_multiplier "moderate") 2.5)) 2 /\
    rounds_to (Macros.carb_g
                 (compute_macros (bmr * activity_multiplier "moderate") 2.5)) 0 /\
    rounds_to bmr (-108).
Proof.
  split; [reflexivity|].
  exact (calculate_rounds_half_even (fun _ => None) (fun _ => "") "" 2 2.5 30
           "male" "moderate" None "" empty_disk empty_disk halfway_response
           eq_refl).
Defined.

(** * Properties of the entry store *)

(** ** The order of texts *)

(** [String.leb] is the reflexive closure of the strict order of texts. *)
Lemma string_leb_iff (s t : string) :
  String.leb s t = true <-> s = t \/ OrderedTypeEx.String_as_OT.lt s t.
Proof.
  unfold String.leb.
  pose proof (OrderedTypeEx.String_as_OT.cmp_lt s t) as Hlt.
  pose proof (OrderedTypeEx.String_as_OT.cmp_eq s t) as Heq.
  unfold OrderedTypeEx.String_as_OT.cmp in *.
  destruct (String.compare s t); split; intros H; try discriminate; auto.
  - left. now apply Heq.
  - right. now apply Hlt.
  - destruct H as [H|H]; [apply Heq in H|apply Hlt in H]; discriminate.
Qed.

Lemma string_leb_trans (s t u : string) :
  String.leb s t = true -> String.leb t u = true -> String.leb s u = true.
Proof.
  rewrite !string_leb_iff. intros [->|H1] [->|H2]; auto.
  right. eapply OrderedTypeEx.String_as_OT.lt_trans; eauto.
Qed.

Lemma string_ltb_false_leb (s t : string) :
  String.ltb s t = false -> String.leb t s = true.
Proof.
  unfold String.ltb, String.leb. rewrite (String.compare_antisym t s).
  destruct (String.compare s t); simpl; congruence.
Qed.

Lemma string_ltb_leb (s t : string) :
  String.ltb s t = true -> String.leb s t = true.
Proof.
  unfold String.ltb, String.leb. destruct (String.compare s t); congruence.
Qed.

Lemma string_leb_empty (s : string) : String.leb s "" = true -> s = "".
Proof. destruct s; [reflexivity|discriminate]. Qed.

(** ** Newest first *)

(** The sort rearranges, sorts, and is stable. *)
Lemma insert_newest_perm (x : json) (l : list json) :
  Permutation (insert_newest x l) (x :: l).
Proof.
  induction l as [|y l IH]; cbn [insert_newest]; [reflexivity|].
  destruct (String.ltb _ _); [|reflexivity].
  rewrite IH. apply perm_swap.
Qed.

Lemma newest_first_perm (l : list json) : Permutation (newest_first l) l.
Proof.
  induction l as [|x l IH]; cbn [newest_first]; [reflexivity|].
  rewrite insert_newest_perm. now constructor.
Qed.

Lemma insert_newest_hd (a x : json) (l : list json) :
  not_older a x -> HdRel not_older a l -> HdRel not_older a (insert_newest x l).
Proof.
  intros Hax Hal. destruct l as [|y l]; cbn [insert_newest]; [now constructor|].
  destruct (String.ltb _ _); constructor; trivial. now inversion Hal.
Qed.

Lemma insert_newest_sorted (x : json) (l : list json) :
  Sorted not_older l -> Sorted not_older (insert_newest x l).
Proof.
  induction 1 as [|y l Hs IH Hhd]; cbn [insert_newest]; [repeat constructor|].
  destruct (String.ltb _ _) eqn:E.
  - constructor; [exact IH|]. apply insert_newest_hd; [|exact Hhd].
    now apply string_ltb_leb.
  - repeat constructor; trivial. now apply string_ltb_false_leb.
Qed.

Lemma not_older_trans : Relations_1.Transitive not_older.
Proof. intros a b c Hab Hbc. unfold not_older in *. eapply string_leb_trans; eauto. Qed.

Lemma newest_first_sorted (l : list json) : StronglySorted not_older (newest_first l).
Proof.
  apply Sorted_StronglySorted; [exact not_older_trans|].
  induction l as [|x l IH]; cbn [newest_first]; [constructor|].
  now apply insert_newest_sorted.
Qed.

(** The sort is stable: the entries of one timestamp keep their order. *)
Lemma insert_newest_stable (k : string) (x : json) (l : list json) :
  filter (fun u => String.eqb (timestamp_of u) k) (insert_newest x l)
  = filter (fun u => String.eqb (timestamp_of u) k) (x :: l).
Proof.
  induction l as [|y l IH]; cbn [insert_newest]; [reflexivity|].
  destruct (String.ltb _ _) eqn:E; [|reflexivity].
  cbn [filter] in *. rewrite IH.
  destruct (String.eqb_spec (timestamp_of x) k) as [Hx|Hx];
    destruct (String.eqb_spec (timestamp_of y) k) as [Hy|Hy]; try reflexivity.
  exfalso. rewrite Hx, Hy in E. unfold String.ltb in E.
  destruct (String.compare k k) eqn:C; try discriminate.
  pose proof (String.compare_antisym k k) as A. rewrite C in A. discriminate.
Qed.

Lemma newest_first_stable (k : string) (l : list json) :
  filter (fun u => String.eqb (timestamp_of u) k) (newest_first l)
  = filter (fun u => String.eqb (timestamp_of u) k) l.
Proof.
  induction l as [|x l IH]; cbn [newest_first]; [reflexivity|].
  rewrite insert_newest_stable. cbn [filter]. now rewrite IH.
Qed.

(** ** The handlers of the store *)

Section Store.

Variable json_loads : string -> option json.
Variable json_dumps : json -> string.
Variable lt_other : json -> json -> result bool.

(** *** The disk *)

Lemma usable_ensurable (fs : filesystem) : usable fs = true -> ensurable fs = true.
Proof.
  destruct fs as [[| | |[|b| |]] [w|] [r|]]; cbn; intros H;
    solve [reflexivity | discriminate H].
Qed.

Lemma usable_grants (fs : filesystem) :
  usable fs = true -> write_refusal fs = None /\ read_refusal fs = None.
Proof.
  destruct fs as [[| | |[|b| |]] [w|] [r|]]; cbn; intros H;
    solve [split; reflexivity | discriminate H].
Qed.

Lemma ensured_idem (fs : filesystem) : ensured (ensured fs) = ensured fs.
Proof. destruct fs as [[| | |[|b| |]] w r]; reflexivity. Qed.

Lemma ensured_ensurable (fs : filesystem) :
  ensurable fs = true -> ensurable (ensured fs) = true.
Proof. destruct fs as [[| | |[|b| |]] [w|] r]; cbn; intros H; solve [reflexivity | discriminate H]. Qed.


(** *** The steps of the handlers, as functions of the disk *)

(** [_ensure_data_file_exists] returns on the disks where the store can be
    made to exist, and raises on the others, which it leaves as they are. *)
Lemma ensure_spec (fs : filesystem) :
  ensurable fs = true -> _ensure_data_file_exists fs = (Ok tt, ensured fs).
Proof.
  destruct fs as [[| | |[|b| |]] [w|] r]; cbn; intros H;
    solve [reflexivity | discriminate H].
Qed.

Lemma ensure_raises (fs : filesystem) :
  ensurable fs = false -> exists e, _ensure_data_file_exists fs = (Raise e, fs).
Proof.
  destruct fs as [[| | |[|b| |]] [w|] r]; cbn; intros H;
    solve [eexists; reflexivity | discriminate H].
Qed.

(** Reading the store where it exists never raises out of the [try]. *)
Lemma read_spec (fs : filesystem) :
  ensurable fs = true ->
  try_except (bind read_text (fun text => lift (loads json_loads text)))
             (ret (JList [])) (ensured fs)
  = (Ok (stored json_loads (ensured fs)), ensured fs).
Proof.
  destruct fs as [[| | |[|b| |]] [w|] [r|]]; intros H;
    try discriminate H;
    unfold try_except, bind, read_text, lift, loads, ret, stored, parsed;
    cbn; try reflexivity;
    try (destruct (utf8 b); [|reflexivity]);
    destruct (json_loads _); reflexivity.
Qed.

Lemma load_users_spec (fs : filesystem) :
  ensurable fs = true ->
  load_users json_loads fs = (Ok (stored json_loads (ensured fs)), ensured fs).
Proof.
  intros H. unfold load_users, bind. rewrite (ensure_spec fs H).
  now apply read_spec.
Qed.

Lemma load_users_raises (fs : filesystem) :
  ensurable fs = false -> exists e, load_users json_loads fs = (Raise e, fs).
Proof.
  intros H. destruct (ensure_raises fs H) as [e He]. exists e.
  unfold load_users, bind. now rewrite He.
Qed.

(** What a call of [load_users] that returned says of the disk. *)
Lemma load_users_inv (fs fs1 : filesystem) (v : json) :
  load_users json_loads fs = (Ok v, fs1) ->
  ensurable fs = true /\ fs1 = ensured fs /\ v = stored json_loads (ensured fs).
Proof.
  destruct (ensurable fs) eqn:E.
  - rewrite (load_users_spec fs E). intros [= <- <-]. auto.
  - destruct (load_users_raises fs E) as [e ->]. discriminate.
Qed.

(** A second call has the outcome of the first. *)
Lemma load_users_again (fs fs1 : filesystem) (r : result json) :
  load_users json_loads fs = (r, fs1) -> load_users json_loads fs1 = (r, fs1).
Proof.
  destruct (ensurable fs) eqn:E.
  - rewrite (load_users_spec fs E). intros [= <- <-].
    rewrite (load_users_spec _ (ensured_ensurable fs E)).
    now rewrite ensured_idem.
  - destruct (load_users_raises fs E) as [e He]. rewrite He.
    now intros [= <- <-].
Qed.

(** A text that [json] reads back is what [load_users] returns of it. *)
Lemma load_users_written (fs : filesystem) (text : string) (v : json) :
  read_refusal fs = None ->
  utf8 text = true ->
  json_loads (universal_newlines text) = Some v ->
  load_users json_loads (with_data fs (Dir (Regular text)))
  = (Ok v, with_data fs (Dir (Regular text))).
Proof.
  intros Hr Hu Hrt. rewrite load_users_spec by reflexivity.
  unfold stored, parsed. cbn. now rewrite Hr, Hu, Hrt.
Qed.

Lemma save_user_entry_spec (fs : filesystem) (entry : json) :
  ensurable fs = true ->
  save_user_entry json_loads json_dumps entry fs
  = match append (stored json_loads (ensured fs)) entry with
    | Ok v' => write_text (json_dumps v') (ensured fs)
    | Raise e => (Raise e, ensured fs)
    end.
Proof.
  intros H. unfold save_user_entry, bind. rewrite (ensure_spec fs H).
  rewrite (load_users_spec _ (ensured_ensurable fs H)), ensured_idem.
  unfold lift. destruct (append _ entry); reflexivity.
Qed.

Lemma save_user_entry_raises (fs : filesystem) (entry : json) :
  ensurable fs = false ->
  exists e, save_user_entry json_loads json_dumps entry fs = (Raise e, fs).
Proof.
  intros H. destruct (ensure_raises fs H) as [e He]. exists e.
  unfold save_user_entry, bind. now rewrite He.
Qed.



Lemma write_text_returns (fs fs' : filesystem) (text : string) :
  write_text text fs = (Ok tt, fs') ->
  utf8 text = true /\ fs' = with_data fs (Dir (Regular text)).
Proof.
  destruct fs as [[| | |[|b| |]] [w|] r]; unfold write_text; cbn;
    try discriminate;
    (destruct (utf8 text) eqn:U; [|discriminate]; intros [= <-]; auto).
Qed.

(** *** The listing *)

(** [dict.get] finds what the dictionary holds under the key. *)
Lemma assoc_field (d : list (string * json)) (k : string) : assoc d k = field d k.
Proof.
  unfold field. induction d as [|[k' v] d IH]; cbn; [reflexivity|].
  destruct (String.eqb k' k); [reflexivity|exact IH].
Qed.

Lemma get_timestamp (u : json) :
  is_entry u = true ->
  get u "timestamp" (JStr "") = Ok (JStr (timestamp_of u)).
Proof.
  destruct u as [| | | | | |d]; try discriminate.
  unfold get, is_entry, timestamp_of. rewrite assoc_field.
  destruct (field d "timestamp") as [[]|]; try discriminate; reflexivity.
Qed.

Lemma keyed_entries (l : list json) :
  forallb is_entry l = true ->
  keyed (fun u => get u "timestamp" (JStr "")) l = Ok (map tag l).
Proof.
  induction l as [|u l IH]; cbn [forallb keyed map]; [reflexivity|].
  intros [Hu Hl]%andb_prop. rewrite (get_timestamp u Hu), (IH Hl). reflexivity.
Qed.

Lemma insert_desc_tag (x : json) (l : list json) :
  insert_desc lt_other (tag x) (map tag l) = Ok (map tag (insert_newest x l)).
Proof.
  induction l as [|y l IH]; cbn [map insert_desc insert_newest]; [reflexivity|].
  cbn [tag fst less_than rbind].
  destruct (String.ltb _ _); [|reflexivity].
  fold (tag x). rewrite IH. reflexivity.
Qed.

Lemma sort_desc_tag (l : list json) :
  sort_desc lt_other (map tag l) = Ok (map tag (newest_first l)).
Proof.
  induction l as [|x l IH]; cbn [map sort_desc newest_first]; [reflexivity|].
  rewrite IH. cbn [rbind]. apply insert_desc_tag.
Qed.

(** On a list of entries [sorted] returns, and returns the stable descending
    sort by timestamp. *)
Lemma sorted_reverse_entries (l : list json) :
  forallb is_entry l = true ->
  sorted_reverse lt_other (JList l) (fun u => get u "timestamp" (JStr ""))
  = Ok (newest_first l).
Proof.
  intros Hl. unfold sorted_reverse. cbn [iter rbind].
  rewrite (keyed_entries l Hl). cbn [rbind]. rewrite sort_desc_tag. cbn [rbind].
  rewrite map_map. cbn [tag snd]. now rewrite map_id.
Qed.

Lemma dashboard_entries (fs fs1 : filesystem) (es : list json) :
  load_users json_loads fs = (Ok (JList es), fs1) ->
  forallb is_entry es = true ->
  dashboard json_loads lt_other fs = (Ok (newest_first es), fs1).
Proof.
  intros Hload Hes. unfold dashboard, bind, lift. rewrite Hload.
  now rewrite sorted_reverse_entries.
Qed.

(** *** Saving *)

(** Where the store holds something that is not a list, [save_user_entry]
    raises and writes nothing. *)
Lemma save_user_entry_not_a_list (fs fs1 : filesystem) (v entry : json) :
  load_users json_loads fs = (Ok v, fs1) ->
  (forall es, v <> JList es) ->
  save_user_entry json_loads json_dumps entry fs = (Raise AttributeError, fs1) /\
  load_users json_loads fs1 = (Ok v, fs1).
Proof.
  intros Hload Hv. split; [|exact (load_users_again _ _ _ Hload)].
  destruct (load_users_inv _ _ _ Hload) as (He & -> & ->).
  rewrite (save_user_entry_spec fs entry He).
  destruct (stored json_loads (ensured fs)); try reflexivity. now elim (Hv l).
Qed.


(** A call of [save_user_entry] that returned has written the stored list
    with the new entry at its end. *)
Lemma save_user_entry_returned (fs fs1 fs2 : filesystem) (v entry : json) :
  load_users json_loads fs = (Ok v, fs1) ->
  save_user_entry json_loads json_dumps entry fs = (Ok tt, fs2) ->
  exists es,
    v = JList es /\
    utf8 (json_dumps (JList (es ++ [entry]))) = true /\
    fs2 = with_data fs (Dir (Regular (json_dumps (JList (es ++ [entry]))))).
Proof.
  intros Hload.
  destruct (load_users_inv _ _ _ Hload) as (He & -> & ->).
  rewrite (save_user_entry_spec fs entry He).
  destruct (stored json_loads (ensured fs)) as [| | | | |es|]; try discriminate.
  cbn [append]. intros Hw. apply write_text_returns in Hw as [Hu ->].
  exists es. repeat split; [exact Hu|].
  destruct fs as [[| | |[|b| |]] w r]; reflexivity.
Qed.




(** A rearrangement of a list without [e] and of [e] holds [e] once. *)
Lemma exactly_once (e : json) (l es : list json) :
  Permutation l (es ++ [e]) -> ~ In e es ->
  exists l1 l2, l = l1 ++ e :: l2 /\ ~ In e l1 /\ ~ In e l2.
Proof.
  intros Hp Hn.
  assert (Hin : In e l).
  { apply (Permutation_in e (Permutation_sym Hp)), in_or_app. right. now left. }
  destruct (in_split e l Hin) as (l1 & l2 & ->). exists l1, l2.
  split; [reflexivity|].
  assert (Hp' : Permutation (l1 ++ l2) es).
  { apply (Permutation_cons_inv (a := e)).
    rewrite Permutation_middle, Hp. symmetry. apply Permutation_cons_append. }
  split; intros H; apply Hn, (Permutation_in e Hp'), in_or_app; auto.
Qed.

(** C5: after a [save_user_entry] that has returned, of an entry that was
    not yet stored, the dashboard lists the stored entries and the new one,
    the new one exactly once, ordered by the text of the timestamp,
    descending; the listing is the stable sort of what [load_users] returns
    ([json] reading back the list that it has written). *)
Theorem append_then_list
  (fs fs1 fs2 : filesystem) (es : list json) (entry : json) :
  load_users json_loads fs = (Ok (JList es), fs1) ->
  save_user_entry json_loads json_dumps entry fs = (Ok tt, fs2) ->
  read_refusal fs = None ->
  json_loads (universal_newlines (json_dumps (JList (es ++ [entry]))))
  = Some (JList (es ++ [entry])) ->
  forallb is_entry (es ++ [entry]) = true ->
  ~ In entry es ->
  exists l,
    dashboard json_loads lt_other fs2 = (Ok l, fs2) /\
    (exists l1 l2, l = l1 ++ entry :: l2 /\ ~ In entry l1 /\ ~ In entry l2) /\
    Permutation l (es ++ [entry]) /\
    StronglySorted not_older l /\
    l = newest_first (es ++ [entry]).
Proof.
  intros Hload Hsave Hr Hrt Hes Hnew.
  destruct (save_user_entry_returned _ _ _ _ _ Hload Hsave) as (es' & [= <-] & Hu & ->).
  pose proof (load_users_written fs _ _ Hr Hu Hrt) as Hload2.
  exists (newest_first (es ++ [entry])).
  split; [now apply dashboard_entries|].
  split; [apply (exactly_once entry _ es); [apply newest_first_perm|exact Hnew]|].
  split; [apply newest_first_perm|].
  split; [apply newest_first_sorted|reflexivity].
Qed.

(** In a sorted list an entry is not older than those after it. *)
Lemma sorted_after (x : json) (l1 l2 : list json) :
  StronglySorted not_older (l1 ++ x :: l2) -> Forall (not_older x) l2.
Proof.
  induction l1 as [|y l1 IH]; cbn; intros H; inversion H; subst; auto.
Qed.

(** C10: the dashboard sorts an entry without a timestamp, or with an empty
    one, under the empty text.  On a store of entries it does not raise, and
    in its listing nothing but entries of an empty key comes after an entry
    of an empty key: every entry with a non-empty timestamp stands in front
    of them all. *)
Theorem dashboard_missing_timestamps_last
  (fs fs1 : filesystem) (es : list json) :
  load_users json_loads fs = (Ok (JList es), fs1) ->
  forallb is_entry es = true ->
  exists l,
    dashboard json_loads lt_other fs = (Ok l, fs1) /\
    l = newest_first es /\
    Permutation l es /\
    (forall l1 x l2,
       l = l1 ++ x :: l2 -> timestamp_of x = "" ->
       Forall (fun y => timestamp_of y = "") l2).
Proof.
  intros Hload Hes. exists (newest_first es).
  split; [now apply dashboard_entries|].
  split; [reflexivity|]. split; [apply newest_first_perm|].
  intros l1 x l2 Hl Hx.
  pose proof (newest_first_sorted es) as Hs. rewrite Hl in Hs.
  apply sorted_after in Hs. revert Hs. apply Forall_impl.
  intros y Hy. unfold not_older in Hy. rewrite Hx in Hy.
  now apply string_leb_empty.
Qed.

End Store.

Example ref_roundtrip :
  RefJson.loads (RefJson.dumps (JList [ann; bob; old_entry; JList [JNull; JBool true; JInt (-3)]]))
  = Some (JList [ann; bob; old_entry; JList [JNull; JBool true; JInt (-3)]]).
Proof. vm_compute. reflexivity. Qed.

Example ref_loads_garbage : RefJson.loads "not json" = None.
Proof. reflexivity. Qed.

Example ref_loads_empty : RefJson.loads "[]" = Some (JList []).
Proof. reflexivity. Qed.

(** * The store theorems on concrete disks *)

Example utf8_examples :
  utf8 "plain text" = true /\
  utf8 (RefJson.dumps (JList [ann; bob])) = true /\
  utf8 lone_surrogate = false /\
  utf8 (RefJson.dumps (JList [ann; stray])) = false /\
  utf8 (String (ascii_of_nat 255) "") = false /\
  utf8 (String (ascii_of_nat 195) (String (ascii_of_nat 169) "")) = true /\
  utf8 (String (ascii_of_nat 192) (String (ascii_of_nat 128) "")) = false.
Proof. repeat split; vm_compute; reflexivity. Qed.



Example load_users_absent :
  load_users RefJson.loads empty_disk = (Ok (JList []), disk (Dir (Regular "[]"))).
Proof. reflexivity. Qed.

Example load_users_corrupt :
  load_users RefJson.loads (disk (Dir (Regular "[{oops")))
  = (Ok (JList []), disk (Dir (Regular "[{oops"))).
Proof. reflexivity. Qed.

Example load_users_not_utf8 :
  load_users RefJson.loads (disk (Dir (Regular (String (ascii_of_nat 255) "[]"))))
  = (Ok (JList []), disk (Dir (Regular (String (ascii_of_nat 255) "[]")))).
Proof. reflexivity. Qed.

Example load_users_on_folder :
  load_users RefJson.loads (disk (Dir Folder)) = (Ok (JList []), disk (Dir Folder)).
Proof. reflexivity. Qed.

Example load_users_on_links :
  load_users RefJson.loads (disk BrokenLink) = (Raise FileExistsError, disk BrokenLink) /\
  load_users RefJson.loads (disk (Dir DeadLink))
  = (Raise FileNotFoundError, disk (Dir DeadLink)).
Proof. split; reflexivity. Qed.

Example load_users_refused :
  load_users RefJson.loads
    {| data := NoData; write_refusal := Some PermissionError; read_refusal := None |}
  = (Raise PermissionError,
     {| data := NoData; write_refusal := Some PermissionError; read_refusal := None |}).
Proof. reflexivity. Qed.



(** A text that does not parse counts as an empty store: saving replaces
    it by the list of the one new entry. *)
Example save_user_entry_on_corrupt_text :
  save_user_entry RefJson.loads RefJson.dumps bob (disk (Dir (Regular "[{oops")))
  = (Ok tt, disk_of (JList [bob])).
Proof. reflexivity. Qed.

(** A store holding a JSON object is not a list of entries: saving raises
    and the file stays as it was. *)
Example save_user_entry_on_object :
  save_user_entry RefJson.loads RefJson.dumps bob (disk (Dir (Regular "{}")))
  = (Raise AttributeError, disk (Dir (Regular "{}"))).
Proof. reflexivity. Qed.

(** A disk that refuses to write, and a directory in the place of the
    file: saving raises and changes nothing. *)
Example save_user_entry_refused :
  save_user_entry RefJson.loads RefJson.dumps bob
    {| data := Dir (Regular "[]"); write_refusal := Some PermissionError;
       read_refusal := None |}
  = (Raise PermissionError,
     {| data := Dir (Regular "[]"); write_refusal := Some PermissionError;
        read_refusal := None |}) /\
  save_user_entry RefJson.loads RefJson.dumps bob (disk (Dir Folder))
  = (Raise IsADirectoryError, disk (Dir Folder)).
Proof. split; reflexivity. Qed.

Lemma append_then_list_witness :
  load_users RefJson.loads (disk_of (JList [old_entry; bob]))
  = (Ok (JList [old_entry; bob]), disk_of (JList [old_entry; bob])) /\
  save_user_entry RefJson.loads RefJson.dumps ann (disk_of (JList [old_entry; bob]))
  = (Ok tt, disk_of (JList [old_entry; bob; ann])) /\
  read_refusal (disk_of (JList [old_entry; bob])) = None /\
  RefJson.loads (universal_newlines (RefJson.dumps (JList ([old_entry; bob] ++ [ann]))))
  = Some (JList ([old_entry; bob] ++ [ann])) /\
  forallb is_entry ([old_entry; bob] ++ [ann]) = true /\
  ~ In ann [old_entry; bob] /\
  dashboard RefJson.loads RefJson.lt_other (disk_of (JList [old_entry; bob; ann]))
  = (Ok [bob; ann; old_entry], disk_of (JList [old_entry; bob; ann])) /\
  (exists l1 l2,
     [bob; ann; old_entry] = l1 ++ ann :: l2 /\ ~ In ann l1 /\ ~ In ann l2) /\
  Permutation [bob; ann; old_entry] ([old_entry; bob] ++ [ann]) /\
  StronglySorted not_older [bob; ann; old_entry].
Proof.
  assert (H1 : load_users RefJson.loads (disk_of (JList [old_entry; bob]))
               = (Ok (JList [old_entry; bob]), disk_of (JList [old_entry; bob])))
    by (vm_compute; reflexivity).
  assert (H2 : save_user_entry RefJson.loads RefJson.dumps ann
                 (disk_of (JList [old_entry; bob]))
               = (Ok tt, disk_of (JList [old_entry; bob; ann])))
    by (vm_compute; reflexivity).
  assert (H3 : read_refusal (disk_of (JList [old_entry; bob])) = None) by reflexivity.
  assert (H4 : RefJson.loads
                 (universal_newlines (RefJson.dumps (JList ([old_entry; bob] ++ [ann]))))
               = Some (JList ([old_entry; bob] ++ [ann])))
    by (vm_compute; reflexivity).
  assert (H5 : forallb is_entry ([old_entry; bob] ++ [ann]) = true) by reflexivity.
  assert (H6 : ~ In ann [old_entry; bob])
    by (intros [H|[H|[]]]; discriminate H).
  repeat (split; [assumption|]).
  destruct (append_then_list RefJson.loads RefJson.dumps RefJson.lt_other
              _ _ _ [old_entry; bob] ann H1 H2 H3 H4 H5 H6)
    as (l & Hd & Hex & Hp & Hs & Hl).
  assert (El : l = [bob; ann; old_entry]) by (rewrite Hl; reflexivity).
  rewrite El in Hd, Hex, Hp, Hs. repeat split; assumption.
Defined.

Example dashboard_after_save :
  fst (dashboard RefJson.loads RefJson.lt_other
         (snd (save_user_entry RefJson.loads RefJson.dumps ann
                 (disk_of (JList [old_entry; bob])))))
  = Ok [bob; ann; old_entry].
Proof. vm_compute. reflexivity. Qed.

Lemma dashboard_missing_timestamps_last_witness :
  load_users RefJson.loads (disk_of (JList [old_entry; ann; undated; bob]))
  = (Ok (JList [old_entry; ann; undated; bob]),
     disk_of (JList [old_entry; ann; undated; bob])) /\
  forallb is_entry [old_entry; ann; undated; bob] = true /\
  dashboard RefJson.loads RefJson.lt_other (disk_of (JList [old_entry; ann; undated; bob]))
  = (Ok [bob; ann; old_entry; undated], disk_of (JList [old_entry; ann; undated; bob])) /\
  Permutation [bob; ann; old_entry; undated] [old_entry; ann; undated; bob] /\
  (forall l1 x l2,
     [bob; ann; old_entry; undated] = l1 ++ x :: l2 -> timestamp_of x = "" ->
     Forall (fun y => timestamp_of y = "") l2).
Proof.
  assert (H1 : load_users RefJson.loads (disk_of (JList [old_entry; ann; undated; bob]))
               = (Ok (JList [old_entry; ann; undated; bob]),
                  disk_of (JList [old_entry; ann; undated; bob])))
    by (vm_compute; reflexivity).
  assert (H2 : forallb is_entry [old_entry; ann; undated; bob] = true) by reflexivity.
  repeat (split; [assumption|]).
  destruct (dashboard_missing_timestamps_last RefJson.loads RefJson.lt_other
              _ _ [old_entry; ann; undated; bob] H1 H2)
    as (l & Hd & Hl & Hp & Hlast).
  assert (El : l = [bob; ann; old_entry; undated]) by (rewrite Hl; reflexivity).
  rewrite El in Hd, Hp, Hlast. repeat split; assumption.
Defined.

Example dashboard_missing_timestamp :
  fst (dashboard RefJson.loads RefJson.lt_other
         (disk_of (JList [old_entry; ann; undated; bob])))
  = Ok [bob; ann; old_entry; undated].
Proof. vm_compute. reflexivity. Qed.

(** * Further properties of the store *)

Section StoreFurther.

Variable json_loads : string -> option json.
Variable json_dumps : json -> string.
Variable lt_other : json -> json -> result bool.




(** X3: the first save.  A save that returns on a disk without the file has
    created the store, and the store then holds the one entry; [json]
    reading "[]" as the empty list and reading back the list that it has
    written. *)
Theorem first_save_creates_store (fs fs2 : filesystem) (entry : json) :
  data fs = NoData \/ data fs = Dir NoFile ->
  save_user_entry json_loads json_dumps entry fs = (Ok tt, fs2) ->
  read_refusal fs = None ->
  json_loads "[]" = Some (JList []) ->
  json_loads (universal_newlines (json_dumps (JList [entry]))) = Some (JList [entry]) ->
  data fs2 = Dir (Regular (json_dumps (JList [entry]))) /\
  load_users json_loads fs2 = (Ok (JList [entry]), fs2).
Proof.
  intros Hnone Hsave Hr Hempty Hrt.
  assert (E : ensurable fs = true).
  { destruct (ensurable fs) eqn:E; [reflexivity|].
    destruct (save_user_entry_raises json_loads json_dumps fs entry E) as [e He].
    rewrite He in Hsave. discriminate Hsave. }
  assert (Hload : load_users json_loads fs = (Ok (JList []), ensured fs)).
  { rewrite (load_users_spec json_loads fs E). f_equal. f_equal.
    destruct fs as [d w r]. cbn in Hnone, Hr. subst r.
    destruct Hnone as [-> | ->]; unfold stored, parsed; cbn; now rewrite Hempty. }
  destruct (save_user_entry_returned json_loads json_dumps _ _ _ _ _ Hload Hsave)
    as (es & [= <-] & Hu & ->).
  split; [reflexivity|]. now apply load_users_written.
Qed.

(** X4: entries are stored in the order of their saves: two saves that
    return leave the stored list followed by the first entry and then the
    second. *)
Theorem saves_keep_submission_order
  (fs fs1 fs2 fs3 : filesystem) (es : list json) (e1 e2 : json) :
  load_users json_loads fs = (Ok (JList es), fs1) ->
  save_user_entry json_loads json_dumps e1 fs = (Ok tt, fs2) ->
  save_user_entry json_loads json_dumps e2 fs2 = (Ok tt, fs3) ->
  read_refusal fs = None ->
  json_loads (universal_newlines (json_dumps (JList (es ++ [e1]))))
  = Some (JList (es ++ [e1])) ->
  json_loads (universal_newlines (json_dumps (JList ((es ++ [e1]) ++ [e2]))))
  = Some (JList ((es ++ [e1]) ++ [e2])) ->
  data_file fs3 = Some (json_dumps (JList (es ++ [e1; e2]))) /\
  load_users json_loads fs3 = (Ok (JList (es ++ [e1; e2])), fs3).
Proof.
  intros Hload S1 S2 Hr H1 H2.
  destruct (save_user_entry_returned json_loads json_dumps _ _ _ _ _ Hload S1)
    as (es' & [= <-] & U1 & ->).
  pose proof (load_users_written json_loads fs _ _ Hr U1 H1) as L1.
  destruct (save_user_entry_returned json_loads json_dumps _ _ _ _ _ L1 S2)
    as (es' & [= <-] & U2 & ->).
  pose proof (load_users_written json_loads fs _ _ Hr U2 H2) as L2.
  rewrite <- app_assoc in *. cbn [app] in *.
  split; [reflexivity|exact L2].
Qed.



(** The keys are computed before anything is compared: one item without
    [get] fails the whole listing. *)
Lemma keyed_non_dict (l : list json) :
  existsb (fun u => negb (is_dict u)) l = true ->
  keyed (fun u => get u "timestamp" (JStr "")) l = Raise AttributeError.
Proof.
  induction l as [|u l IH]; cbn [existsb keyed]; [discriminate|].
  destruct u; cbn [is_dict negb orb get rbind]; try reflexivity.
  intros H. now rewrite (IH H).
Qed.

(** X6: one stored item that is not a dictionary makes the dashboard raise
    [AttributeError], wherever the item stands and whatever the other items
    are; the store is left as it is. *)
Theorem dashboard_raises_on_non_dict
  (fs fs1 : filesystem) (l : list json) :
  load_users json_loads fs = (Ok (JList l), fs1) ->
  existsb (fun u => negb (is_dict u)) l = true ->
  dashboard json_loads lt_other fs = (Raise AttributeError, fs1).
Proof.
  intros Hload Hbad. unfold dashboard, bind, lift. rewrite Hload.
  unfold sorted_reverse. cbn [iter rbind]. now rewrite keyed_non_dict.
Qed.

(** X7: the listing is stable: the entries of one timestamp, and so the
    entries without a timestamp, are listed in the order in which they are
    stored. *)
Theorem dashboard_is_stable
  (fs fs1 : filesystem) (es : list json) :
  load_users json_loads fs = (Ok (JList es), fs1) ->
  forallb is_entry es = true ->
  exists l,
    dashboard json_loads lt_other fs = (Ok l, fs1) /\
    forall k,
      filter (fun u => String.eqb (timestamp_of u) k) l
      = filter (fun u => String.eqb (timestamp_of u) k) es.
Proof.
  intros Hload Hes. exists (newest_first es).
  split; [now apply dashboard_entries|]. intros k. apply newest_first_stable.
Qed.

(** [sorted] on a value that is not a list. *)
Lemma sorted_reverse_non_list (v : json) :
  (forall l, v <> JList l) ->
  sorted_reverse lt_other v (fun u => get u "timestamp" (JStr ""))
  = listing_of_non_list v.
Proof.
  intros Hv. unfold sorted_reverse.
  destruct v as [| | | |s|l|d]; try reflexivity.
  - destruct s; reflexivity.
  - now elim (Hv l).
  - destruct d as [|[k x] d]; reflexivity.
Qed.

(** X8: a store that parses to something else than a list.  An empty
    object or an empty text is listed as no entries; a non-empty object or
    text makes the dashboard raise [AttributeError]; a number, a boolean or
    [null] makes it raise [TypeError]. *)
Theorem dashboard_on_non_list
  (fs fs1 : filesystem) (v : json) :
  load_users json_loads fs = (Ok v, fs1) ->
  (forall l, v <> JList l) ->
  dashboard json_loads lt_other fs = (listing_of_non_list v, fs1).
Proof.
  intros Hload Hv. unfold dashboard, bind, lift. rewrite Hload.
  now rewrite sorted_reverse_non_list.
Qed.

(** An entry newer than all of a list goes in front of the sorted list. *)
Lemma newest_first_snoc (es : list json) (e : json) :
  Forall (fun u => String.ltb (timestamp_of u) (timestamp_of e) = true) es ->
  newest_first (es ++ [e]) = e :: newest_first es.
Proof.
  induction 1 as [|x es Hx _ IH]; [reflexivity|].
  cbn [app newest_first]. rewrite IH. cbn [insert_newest]. now rewrite Hx.
Qed.

(** X9: newest first.  An entry saved with a timestamp greater than every
    stored one heads the next listing, in front of the earlier listing. *)
Theorem saved_newest_is_listed_first
  (fs fs1 fs2 : filesystem) (es : list json) (entry : json) :
  load_users json_loads fs = (Ok (JList es), fs1) ->
  save_user_entry json_loads json_dumps entry fs = (Ok tt, fs2) ->
  read_refusal fs = None ->
  json_loads (universal_newlines (json_dumps (JList (es ++ [entry]))))
  = Some (JList (es ++ [entry])) ->
  forallb is_entry (es ++ [entry]) = true ->
  Forall (fun u => String.ltb (timestamp_of u) (timestamp_of entry) = true) es ->
  exists earlier,
    dashboard json_loads lt_other fs = (Ok earlier, fs1) /\
    dashboard json_loads lt_other fs2 = (Ok (entry :: earlier), fs2).
Proof.
  intros Hload Hsave Hr Hrt Hes Hnew.
  assert (Hes' : forallb is_entry es = true).
  { rewrite forallb_app in Hes. now apply andb_prop in Hes as [H _]. }
  destruct (save_user_entry_returned json_loads json_dumps _ _ _ _ _ Hload Hsave)
    as (es' & [= <-] & Hu & ->).
  pose proof (load_users_written json_loads fs _ _ Hr Hu Hrt) as Hload2.
  exists (newest_first es).
  split; [now apply dashboard_entries|].
  rewrite <- (newest_first_snoc es entry Hnew). now apply dashboard_entries.
Qed.

End StoreFurther.

(** * Further properties of the engine and of [/calculate] *)

(** ** The spellings of the gender *)

Lemma same_letter_m c : same_letter c "m" = true -> c = "m"%char \/ c = "M"%char.
Proof. destruct c as [[] [] [] [] [] [] [] []]; cbn; intros H; auto; discriminate H. Qed.
Lemma same_letter_a c : same_letter c "a" = true -> c = "a"%char \/ c = "A"%char.
Proof. destruct c as [[] [] [] [] [] [] [] []]; cbn; intros H; auto; discriminate H. Qed.
Lemma same_letter_l c : same_letter c "l" = true -> c = "l"%char \/ c = "L"%char.
Proof. destruct c as [[] [] [] [] [] [] [] []]; cbn; intros H; auto; discriminate H. Qed.
Lemma same_letter_e c : same_letter c "e" = true -> c = "e"%char \/ c = "E"%char.
Proof. destruct c as [[] [] [] [] [] [] [] []]; cbn; intros H; auto; discriminate H. Qed.

(** The test [gender.lower() == "male"] holds of the sixteen spellings and
    of no other text. *)
Lemma lower_male_spellings (gender : string) :
  String.eqb (lower gender) "male" = true <-> In gender male_spellings.
Proof.
  rewrite lower_is_male. split.
  - destruct gender as [|c1 [|c2 [|c3 [|c4 [|c5 g]]]]]; cbn [caseless_eqb];
      rewrite ?andb_false_r; try discriminate.
    rewrite andb_true_r.
    intros H. apply andb_prop in H as [H1 H]. apply andb_prop in H as [H2 H].
    apply andb_prop in H as [H3 H4].
    destruct (same_letter_m _ H1) as [-> | ->], (same_letter_a _ H2) as [-> | ->],
      (same_letter_l _ H3) as [-> | ->], (same_letter_e _ H4) as [-> | ->];
      unfold male_spellings; cbn [In];
      repeat first [left; reflexivity | right].
  - unfold male_spellings. cbn [In].
    intros H. repeat (destruct H as [<- | H]; [reflexivity|]). contradiction.
Qed.

(** X10: the gender decides the formula by its spelling alone.  The
    sixteen spellings of "male" in capitals and small letters take the male
    constant [+5]; every other text takes [-161], also "male" with a blank
    before or after it, "m" or "man". *)
Theorem male_formula_spellings
  (weight_kg height_cm : float) (age_years : Z) (age : float) (gender : string) :
  int_to_float age_years = Ok age ->
  (In gender male_spellings ->
   calculate_bmr_mifflin_st_jeor weight_kg height_cm age_years gender
   = Ok (10 * weight_kg + 6.25 * height_cm - 5 * age + 5)%float) /\
  (~ In gender male_spellings ->
   calculate_bmr_mifflin_st_jeor weight_kg height_cm age_years gender
   = Ok (10 * weight_kg + 6.25 * height_cm - 5 * age - 161)%float).
Proof.
  intros Hage. unfold calculate_bmr_mifflin_st_jeor. rewrite Hage. cbn [rbind].
  pose proof (lower_male_spellings gender) as Hs.
  destruct (String.eqb (lower gender) "male"); split; intros H; try reflexivity.
  - elim H. now apply Hs.
  - apply Hs in H. discriminate H.
Qed.

Example bmr_trailing_blank :
  calculate_bmr_mifflin_st_jeor 80 180 30 "male "
  = calculate_bmr_mifflin_st_jeor 80 180 30 "female".
Proof. reflexivity. Qed.

(** ** The stages of [/calculate] *)

Section CalculateFurther.

Variable json_loads : string -> option json.
Variable json_dumps : json -> string.

(** The handler computes, then saves if asked, then answers. *)
Lemma calculate_stages (name : string) (height_cm weight_kg : float)
  (age_years : Z) (gender activity_level : string) (save : option string)
  (utcnow : string) (fs : filesystem) :
  calculate json_loads json_dumps name height_cm weight_kg age_years gender
    activity_level save utcnow fs
  = match computed_result height_cm weight_kg age_years gender activity_level with
    | Raise e => (Raise e, fs)
    | Ok r =>
        let answer :=
          response_of name height_cm weight_kg age_years gender activity_level save r in
        match save with
        | None => (Ok answer, fs)
        | Some _ =>
            match save_user_entry json_loads json_dumps
                    (saved_entry name height_cm weight_kg age_years gender
                       activity_level utcnow r) fs with
            | (Ok _, fs') => (Ok answer, fs')
            | (Raise e, fs') => (Raise e, fs')
            end
        end
    end.
Proof.
  unfold calculate, computed_result, bind, lift, ret.
  destruct (calculate_bmr_mifflin_st_jeor _ _ _ _) as [bmr|]; cbn [rbind]; [|reflexivity].
  destruct (Py.round (bmr * _)); cbn [rbind]; [|reflexivity].
  destruct (Py.round (Macros.protein_g _)); cbn [rbind]; [|reflexivity].
  destruct (Py.round (Macros.fat_g _)); cbn [rbind]; [|reflexivity].
  destruct (Py.round (Macros.carb_g _)); cbn [rbind]; [|reflexivity].
  destruct (Py.round bmr); cbn [rbind]; [|reflexivity].
  destruct save; [|reflexivity].
  unfold saved_entry. destruct (save_user_entry _ _ _ _) as [[[]|] fs']; reflexivity.
Qed.




(** X11: without the save flag the handler never touches the disk, whether
    it returns or raises: no directory and no file is created. *)
Theorem calculate_without_save_keeps_disk (name : string)
  (height_cm weight_kg : float) (age_years : Z) (gender activity_level : string)
  (utcnow : string) (fs : filesystem) :
  snd (calculate json_loads json_dumps name height_cm weight_kg age_years gender
         activity_level None utcnow fs) = fs.
Proof.
  rewrite calculate_stages. destruct (computed_result _ _ _ _ _); reflexivity.
Qed.


(** X13: a request with the save flag that is answered, on a store that
    holds a list, carries the computed result and [saved = true], and the
    store then holds the list followed by one new entry, which carries the
    name (or "Anonymous"), [utcnow] followed by "Z", the inputs and the
    result ([json] reading back the list that it has written). *)
Theorem calculate_saves_entry (name : string)
  (height_cm weight_kg : float) (age_years : Z) (gender activity_level : string)
  (flag utcnow : string) (fs fs1 fs2 : filesystem) (es : list json) (r : Result.t)
  (answer : response) :
  let entry :=
    saved_entry name height_cm weight_kg age_years gender activity_level utcnow r in
  computed_result height_cm weight_kg age_years gender activity_level = Ok r ->
  load_users json_loads fs = (Ok (JList es), fs1) ->
  calculate json_loads json_dumps name height_cm weight_kg age_years gender
    activity_level (Some flag) utcnow fs = (Ok answer, fs2) ->
  read_refusal fs = None ->
  json_loads (universal_newlines (json_dumps (JList (es ++ [entry]))))
  = Some (JList (es ++ [entry])) ->
  result_ answer = r /\
  saved answer = true /\
  data_file fs2 = Some (json_dumps (JList (es ++ [entry]))) /\
  load_users json_loads fs2 = (Ok (JList (es ++ [entry])), fs2) /\
  get entry "name" JNull = Ok (JStr (if String.eqb name "" then "Anonymous" else name)) /\
  get entry "timestamp" JNull = Ok (JStr (utcnow ++ "Z")) /\
  get entry "results" JNull = Ok (Result.to_json r).
Proof.
  intros entry Hc Hload Hcalc Hr Hrt.
  rewrite calculate_stages, Hc in Hcalc. cbv zeta in Hcalc. fold entry in Hcalc.
  destruct (save_user_entry json_loads json_dumps entry fs) as [[[]|e1] fs3] eqn:Es;
    [|discriminate].
  injection Hcalc as <- <-.
  destruct (save_user_entry_returned json_loads json_dumps _ _ _ _ _ Hload Es)
    as (es' & [= <-] & Hu & ->).
  repeat split. now apply load_users_written.
Qed.

(** X14: the save flag on a store that does not hold a list makes the
    request fail with [AttributeError], although the computation succeeds
    and the same request without the flag is answered. *)
Theorem calculate_save_on_broken_store (name : string)
  (height_cm weight_kg : float) (age_years : Z) (gender activity_level : string)
  (flag utcnow : string) (fs fs1 : filesystem) (v : json) (r : Result.t) :
  computed_result height_cm weight_kg age_years gender activity_level = Ok r ->
  load_users json_loads fs = (Ok v, fs1) ->
  (forall l, v <> JList l) ->
  calculate json_loads json_dumps name height_cm weight_kg age_years gender
    activity_level (Some flag) utcnow fs = (Raise AttributeError, fs1) /\
  exists answer,
    calculate json_loads json_dumps name height_cm weight_kg age_years gender
      activity_level None utcnow fs = (Ok answer, fs) /\
    result_ answer = r.
Proof.
  intros Hc Hload Hv. rewrite !calculate_stages, Hc. cbv zeta. split.
  - destruct (save_user_entry_not_a_list json_loads json_dumps fs fs1 v
                (saved_entry name height_cm weight_kg age_years gender
                   activity_level utcnow r) Hload Hv) as [-> _].
    reflexivity.
  - eexists. split; reflexivity.
Qed.

End CalculateFurther.

(** X15: the result depends on the five inputs alone: two requests with the
    same height, weight, age, gender and activity level that are both
    answered carry the same result, whatever the name, the save flag, the
    clock, the disk and the [json] module. *)
Theorem calculate_result_of_inputs
  (loads1 loads2 : string -> option json) (dumps1 dumps2 : json -> string)
  (name1 name2 : string) (height_cm weight_kg : float) (age_years : Z)
  (gender activity_level : string) (save1 save2 : option string)
  (utcnow1 utcnow2 : string) (fs1 fs1' fs2 fs2' : filesystem)
  (answer1 answer2 : response) :
  calculate loads1 dumps1 name1 height_cm weight_kg age_years gender
    activity_level save1 utcnow1 fs1 = (Ok answer1, fs1') ->
  calculate loads2 dumps2 name2 height_cm weight_kg age_years gender
    activity_level save2 utcnow2 fs2 = (Ok answer2, fs2') ->
  result_ answer1 = result_ answer2.
Proof.
  rewrite !calculate_stages.
  destruct (computed_result _ _ _ _ _) as [r|]; [|discriminate]. cbv zeta.
  assert (E : forall loads dumps name save utcnow fs fs' answer,
    match save with
    | None =>
        (Ok (response_of name height_cm weight_kg age_years gender
               activity_level save r), fs)
    | Some _ =>
        match save_user_entry loads dumps
                (saved_entry name height_cm weight_kg age_years gender
                   activity_level utcnow r) fs with
        | (Ok _, fs0) =>
            (Ok (response_of name height_cm weight_kg age_years gender
                   activity_level save r), fs0)
        | (Raise e, fs0) => (Raise e, fs0)
        end
    end = (Ok answer, fs') -> result_ answer = r).
  { intros loads dumps name [flag|] utcnow fs fs' answer.
    - destruct (save_user_entry _ _ _ _) as [[u|e] fs0]; [|discriminate].
      now intros [= <- _].
    - now intros [= <- _]. }
  intros H1 H2. apply E in H1. apply E in H2. congruence.
Qed.

(** X16: after a request with the save flag that is answered, on a store of
    entries, the new entry is on the next dashboard: the listing is the
    stable descending sort of the stored entries and the new one, the new one
    sorts under [utcnow] followed by "Z", and it heads the listing when every
    stored timestamp is smaller. *)
Theorem calculate_then_dashboard
  (json_loads : string -> option json) (json_dumps : json -> string)
  (lt_other : json -> json -> result bool) (name : string)
  (height_cm weight_kg : float) (age_years : Z) (gender activity_level : string)
  (flag utcnow : string) (fs fs1 fs2 : filesystem) (es : list json) (r : Result.t)
  (answer : response) :
  let entry :=
    saved_entry name height_cm weight_kg age_years gender activity_level utcnow r in
  computed_result height_cm weight_kg age_years gender activity_level = Ok r ->
  load_users json_loads fs = (Ok (JList es), fs1) ->
  calculate json_loads json_dumps name height_cm weight_kg age_years gender
    activity_level (Some flag) utcnow fs = (Ok answer, fs2) ->
  read_refusal fs = None ->
  json_loads (universal_newlines (json_dumps (JList (es ++ [entry]))))
  = Some (JList (es ++ [entry])) ->
  forallb is_entry es = true ->
  exists listing,
    dashboard json_loads lt_other fs2 = (Ok listing, fs2) /\
    listing = newest_first (es ++ [entry]) /\
    In entry listing /\
    timestamp_of entry = (utcnow ++ "Z")%string /\
    (Forall (fun u => String.ltb (timestamp_of u) (utcnow ++ "Z")%string = true) es ->
     listing = entry :: newest_first es).
Proof.
  intros entry Hc Hload Hcalc Hr Hrt Hes.
  rewrite calculate_stages, Hc in Hcalc. cbv zeta in Hcalc. fold entry in Hcalc.
  destruct (save_user_entry json_loads json_dumps entry fs) as [[[]|e1] fs3] eqn:Es;
    [|discriminate].
  injection Hcalc as _ <-.
  destruct (save_user_entry_returned json_loads json_dumps _ _ _ _ _ Hload Es)
    as (es' & [= <-] & Hu & ->).
  pose proof (load_users_written json_loads fs _ _ Hr Hu Hrt) as Hload2.
  eexists. split.
  - apply dashboard_entries; [exact Hload2|].
    rewrite forallb_app, Hes. reflexivity.
  - split; [reflexivity|]. split; [|split; [reflexivity|]].
    + apply (Permutation_in entry (Permutation_sym (newest_first_perm _))).
      apply in_or_app. right. now left.
    + intros Hnew. now apply newest_first_snoc.
Qed.

(** ** Not a number *)

Lemma is_nan_spec (x : float) : is_nan x = true -> Prim2SF x = S754_nan.
Proof.
  unfold is_nan. rewrite eqb_spec. unfold SFeqb, SFcompare.
  destruct (Prim2SF x) as [s|s| |s m e]; try reflexivity.
  - discriminate.
  - destruct s; discriminate.
  - rewrite Z.compare_refl, Pos.compare_cont_refl. destruct s; discriminate.
Qed.

Lemma nan_of_spec (x : float) : Prim2SF x = S754_nan -> x = nan.
Proof. intros H. apply Prim2SF_inj. now rewrite H. Qed.

(** A NaN operand makes the product, the sum and the difference a NaN. *)
Lemma mul_nan_l (y : float) : (nan * y)%float = nan.
Proof. apply nan_of_spec. rewrite mul_spec. reflexivity. Qed.

Lemma mul_nan_r (x : float) : (x * nan)%float = nan.
Proof.
  apply nan_of_spec. rewrite mul_spec. change (Prim2SF nan) with S754_nan.
  unfold SF64mul, SFmul. destruct (Prim2SF x); reflexivity.
Qed.

Lemma add_nan_l (y : float) : (nan + y)%float = nan.
Proof. apply nan_of_spec. rewrite add_spec. reflexivity. Qed.

Lemma add_nan_r (x : float) : (x + nan)%float = nan.
Proof.
  apply nan_of_spec. rewrite add_spec. change (Prim2SF nan) with S754_nan.
  unfold SF64add, SFadd. destruct (Prim2SF x); reflexivity.
Qed.

Lemma sub_nan_l (y : float) : (nan - y)%float = nan.
Proof. apply nan_of_spec. rewrite sub_spec. reflexivity. Qed.

Lemma computed_result_nan (height_cm weight_kg : float) (age_years : Z)
  (gender activity_level : string) :
  Z.abs age_years < int_overflow_bound ->
  is_nan weight_kg = true \/ is_nan height_cm = true ->
  computed_result height_cm weight_kg age_years gender activity_level
  = Raise ValueError.
Proof.
  intros Hage Hnan. unfold computed_result, calculate_bmr_mifflin_st_jeor.
  destruct (proj1 (int_to_float_range age_years) Hage) as [age ->]. cbn [rbind].
  assert (Hbase : (10.0 * weight_kg + 6.25 * height_cm - 5.0 * age)%float = nan).
  { destruct Hnan as [H|H]; apply is_nan_spec, nan_of_spec in H; subst.
    - now rewrite mul_nan_r, add_nan_l, sub_nan_l.
    - now rewrite mul_nan_r, add_nan_r, sub_nan_l. }
  rewrite Hbase.
  destruct (String.eqb _ _); cbn [rbind];
    rewrite ?add_nan_l, ?sub_nan_l, mul_nan_l; reflexivity.
Qed.

(** X17: a weight or a height that is not a number makes the request fail
    with [ValueError] for every age that converts to a float, whatever the
    other inputs and also with the save flag; the disk is left as it is. *)
Theorem calculate_rejects_nan
  (json_loads : string -> option json) (json_dumps : json -> string)
  (name : string) (height_cm weight_kg : float) (age_years : Z)
  (gender activity_level : string) (save : option string) (utcnow : string)
  (fs : filesystem) :
  Z.abs age_years < int_overflow_bound ->
  is_nan weight_kg = true \/ is_nan height_cm = true ->
  calculate json_loads json_dumps name height_cm weight_kg age_years gender
    activity_level save utcnow fs = (Raise ValueError, fs).
Proof.
  intros Hage Hnan. rewrite calculate_stages.
  now rewrite computed_result_nan.
Qed.

(** * The further properties on concrete disks *)

Example ensure_on_disks :
  _ensure_data_file_exists empty_disk = (Ok tt, disk (Dir (Regular "[]"))) /\
  _ensure_data_file_exists (disk (Dir NoFile)) = (Ok tt, disk (Dir (Regular "[]"))) /\
  _ensure_data_file_exists (disk (Dir (Regular "[{oops")))
  = (Ok tt, disk (Dir (Regular "[{oops"))) /\
  _ensure_data_file_exists (disk (Dir Folder)) = (Ok tt, disk (Dir Folder)) /\
  _ensure_data_file_exists (disk NotDir) = (Raise NotADirectoryError, disk NotDir) /\
  _ensure_data_file_exists (disk BrokenLink) = (Raise FileExistsError, disk BrokenLink) /\
  _ensure_data_file_exists (disk (Dir DeadLink))
  = (Raise FileNotFoundError, disk (Dir DeadLink)).
Proof. repeat split. Qed.

Lemma first_save_creates_store_witness :
  (data empty_disk = NoData \/ data empty_disk = Dir NoFile) /\
  save_user_entry RefJson.loads RefJson.dumps bob empty_disk
  = (Ok tt, disk_of (JList [bob])) /\
  read_refusal empty_disk = None /\
  RefJson.loads "[]" = Some (JList []) /\
  RefJson.loads (universal_newlines (RefJson.dumps (JList [bob]))) = Some (JList [bob]) /\
  data (disk_of (JList [bob])) = Dir (Regular (RefJson.dumps (JList [bob]))) /\
  load_users RefJson.loads (disk_of (JList [bob]))
  = (Ok (JList [bob]), disk_of (JList [bob])).
Proof.
  assert (H1 : data empty_disk = NoData \/ data empty_disk = Dir NoFile)
    by (left; reflexivity).
  assert (H2 : save_user_entry RefJson.loads RefJson.dumps bob empty_disk
               = (Ok tt, disk_of (JList [bob])))
    by (vm_compute; reflexivity).
  assert (H3 : read_refusal empty_disk = None) by reflexivity.
  assert (H4 : RefJson.loads "[]" = Some (JList [])) by reflexivity.
  assert (H5 : RefJson.loads (universal_newlines (RefJson.dumps (JList [bob])))
               = Some (JList [bob]))
    by (vm_compute; reflexivity).
  repeat (split; [assumption|]).
  exact (first_save_creates_store RefJson.loads RefJson.dumps empty_disk _ bob
           H1 H2 H3 H4 H5).
Defined.

Lemma saves_keep_submission_order_witness :
  load_users RefJson.loads (disk_of (JList [old_entry]))
  = (Ok (JList [old_entry]), disk_of (JList [old_entry])) /\
  save_user_entry RefJson.loads RefJson.dumps bob (disk_of (JList [old_entry]))
  = (Ok tt, disk_of (JList [old_entry; bob])) /\
  save_user_entry RefJson.loads RefJson.dumps ann (disk_of (JList [old_entry; bob]))
  = (Ok tt, disk_of (JList [old_entry; bob; ann])) /\
  read_refusal (disk_of (JList [old_entry])) = None /\
  RefJson.loads (universal_newlines (RefJson.dumps (JList ([old_entry] ++ [bob]))))
  = Some (JList ([old_entry] ++ [bob])) /\
  RefJson.loads
    (universal_newlines (RefJson.dumps (JList (([old_entry] ++ [bob]) ++ [ann]))))
  = Some (JList (([old_entry] ++ [bob]) ++ [ann])) /\
  data_file (disk_of (JList [old_entry; bob; ann]))
  = Some (RefJson.dumps (JList ([old_entry] ++ [bob; ann]))) /\
  load_users RefJson.loads (disk_of (JList [old_entry; bob; ann]))
  = (Ok (JList ([old_entry] ++ [bob; ann])), disk_of (JList [old_entry; bob; ann])).
Proof.
  assert (H1 : load_users RefJson.loads (disk_of (JList [old_entry]))
               = (Ok (JList [old_entry]), disk_of (JList [old_entry])))
    by (vm_compute; reflexivity).
  assert (H2 : save_user_entry RefJson.loads RefJson.dumps bob
                 (disk_of (JList [old_entry]))
               = (Ok tt, disk_of (JList [old_entry; bob])))
    by (vm_compute; reflexivity).
  assert (H3 : save_user_entry RefJson.loads RefJson.dumps ann
                 (disk_of (JList [old_entry; bob]))
               = (Ok tt, disk_of (JList [old_entry; bob; ann])))
    by (vm_compute; reflexivity).
  assert (H4 : read_refusal (disk_of (JList [old_entry])) = None) by reflexivity.
  assert (H5 : RefJson.loads
                 (universal_newlines (RefJson.dumps (JList ([old_entry] ++ [bob]))))
               = Some (JList ([old_entry] ++ [bob])))
    by (vm_compute; reflexivity).
  assert (H6 : RefJson.loads
                 (universal_newlines
                    (RefJson.dumps (JList (([old_entry] ++ [bob]) ++ [ann]))))
               = Some (JList (([old_entry] ++ [bob]) ++ [ann])))
    by (vm_compute; reflexivity).
  repeat (split; [assumption|]).
  exact (saves_keep_submission_order RefJson.loads RefJson.dumps
           _ _ _ _ [old_entry] bob ann H1 H2 H3 H4 H5 H6).
Defined.

Lemma dashboard_raises_on_non_dict_witness :
  load_users RefJson.loads (disk_of (JList [ann; JInt 7; bob]))
  = (Ok (JList [ann; JInt 7; bob]), disk_of (JList [ann; JInt 7; bob])) /\
  existsb (fun u => negb (is_dict u)) [ann; JInt 7; bob] = true /\
  dashboard RefJson.loads RefJson.lt_other (disk_of (JList [ann; JInt 7; bob]))
  = (Raise AttributeError, disk_of (JList [ann; JInt 7; bob])).
Proof.
  assert (H1 : load_users RefJson.loads (disk_of (JList [ann; JInt 7; bob]))
               = (Ok (JList [ann; JInt 7; bob]), disk_of (JList [ann; JInt 7; bob])))
    by (vm_compute; reflexivity).
  assert (H2 : existsb (fun u => negb (is_dict u)) [ann; JInt 7; bob] = true)
    by reflexivity.
  repeat (split; [assumption|]).
  exact (dashboard_raises_on_non_dict RefJson.loads RefJson.lt_other _ _ _ H1 H2).
Defined.

Lemma dashboard_is_stable_witness :
  load_users RefJson.loads (disk_of (JList [old_entry; ann; JDict []; bob]))
  = (Ok (JList [old_entry; ann; JDict []; bob]),
     disk_of (JList [old_entry; ann; JDict []; bob])) /\
  forallb is_entry [old_entry; ann; JDict []; bob] = true /\
  exists l,
    dashboard RefJson.loads RefJson.lt_other
      (disk_of (JList [old_entry; ann; JDict []; bob]))
    = (Ok l, disk_of (JList [old_entry; ann; JDict []; bob])) /\
    forall k,
      filter (fun u => String.eqb (timestamp_of u) k) l
      = filter (fun u => String.eqb (timestamp_of u) k)
          [old_entry; ann; JDict []; bob].
Proof.
  assert (H1 : load_users RefJson.loads (disk_of (JList [old_entry; ann; JDict []; bob]))
               = (Ok (JList [old_entry; ann; JDict []; bob]),
                  disk_of (JList [old_entry; ann; JDict []; bob])))
    by (vm_compute; reflexivity).
  assert (H2 : forallb is_entry [old_entry; ann; JDict []; bob] = true)
    by reflexivity.
  repeat (split; [assumption|]).
  exact (dashboard_is_stable RefJson.loads RefJson.lt_other _ _ _ H1 H2).
Defined.

Example dashboard_keeps_undated_order :
  fst (dashboard RefJson.loads RefJson.lt_other
         (disk_of (JList [old_entry; ann; JDict []; bob])))
  = Ok [bob; ann; old_entry; JDict []].
Proof. vm_compute. reflexivity. Qed.

Lemma dashboard_on_non_list_witness :
  load_users RefJson.loads (disk_of (JDict [("name", JStr "Ann")]))
  = (Ok (JDict [("name", JStr "Ann")]), disk_of (JDict [("name", JStr "Ann")])) /\
  (forall l, JDict [("name", JStr "Ann")] <> JList l) /\
  dashboard RefJson.loads RefJson.lt_other (disk_of (JDict [("name", JStr "Ann")]))
  = (listing_of_non_list (JDict [("name", JStr "Ann")]),
     disk_of (JDict [("name", JStr "Ann")])).
Proof.
  assert (H1 : load_users RefJson.loads (disk_of (JDict [("name", JStr "Ann")]))
               = (Ok (JDict [("name", JStr "Ann")]),
                  disk_of (JDict [("name", JStr "Ann")])))
    by (vm_compute; reflexivity).
  assert (H2 : forall l, JDict [("name", JStr "Ann")] <> JList l)
    by (intros l H; discriminate H).
  repeat (split; [assumption|]).
  exact (dashboard_on_non_list RefJson.loads RefJson.lt_other _ _ _ H1 H2).
Defined.

Example dashboard_on_object :
  fst (dashboard RefJson.loads RefJson.lt_other object_disk) = Ok [] /\
  fst (dashboard RefJson.loads RefJson.lt_other
         (disk_of (JDict [("name", JStr "Ann")]))) = Raise AttributeError /\
  fst (dashboard RefJson.loads RefJson.lt_other (disk_of (JInt 7))) = Raise TypeError.
Proof. repeat split; vm_compute; reflexivity. Qed.

Example dashboard_on_bad_disks :
  dashboard RefJson.loads RefJson.lt_other (disk NotDir)
  = (Raise NotADirectoryError, disk NotDir) /\
  dashboard RefJson.loads RefJson.lt_other (disk (Dir Folder))
  = (Ok [], disk (Dir Folder)).
Proof. split; reflexivity. Qed.

Lemma saved_newest_is_listed_first_witness :
  load_users RefJson.loads (disk_of (JList [old_entry; ann]))
  = (Ok (JList [old_entry; ann]), disk_of (JList [old_entry; ann])) /\
  save_user_entry RefJson.loads RefJson.dumps bob (disk_of (JList [old_entry; ann]))
  = (Ok tt, disk_of (JList [old_entry; ann; bob])) /\
  read_refusal (disk_of (JList [old_entry; ann])) = None /\
  RefJson.loads (universal_newlines (RefJson.dumps (JList ([old_entry; ann] ++ [bob]))))
  = Some (JList ([old_entry; ann] ++ [bob])) /\
  forallb is_entry ([old_entry; ann] ++ [bob]) = true /\
  Forall (fun u => String.ltb (timestamp_of u) (timestamp_of bob) = true)
    [old_entry; ann] /\
  dashboard RefJson.loads RefJson.lt_other (disk_of (JList [old_entry; ann]))
  = (Ok [ann; old_entry], disk_of (JList [old_entry; ann])) /\
  dashboard RefJson.loads RefJson.lt_other (disk_of (JList [old_entry; ann; bob]))
  = (Ok [bob; ann; old_entry], disk_of (JList [old_entry; ann; bob])).
Proof.
  assert (H1 : load_users RefJson.loads (disk_of (JList [old_entry; ann]))
               = (Ok (JList [old_entry; ann]), disk_of (JList [old_entry; ann])))
    by (vm_compute; reflexivity).
  assert (H2 : save_user_entry RefJson.loads RefJson.dumps bob
                 (disk_of (JList [old_entry; ann]))
               = (Ok tt, disk_of (JList [old_entry; ann; bob])))
    by (vm_compute; reflexivity).
  assert (H3 : read_refusal (disk_of (JList [old_entry; ann])) = None) by reflexivity.
  assert (H4 : RefJson.loads
                 (universal_newlines (RefJson.dumps (JList ([old_entry; ann] ++ [bob]))))
               = Some (JList ([old_entry; ann] ++ [bob])))
    by (vm_compute; reflexivity).
  assert (H5 : forallb is_entry ([old_entry; ann] ++ [bob]) = true) by reflexivity.
  assert (H6 : Forall (fun u => String.ltb (timestamp_of u) (timestamp_of bob) = true)
                 [old_entry; ann])
    by (repeat constructor).
  repeat (split; [assumption|]).
  destruct (saved_newest_is_listed_first RefJson.loads RefJson.dumps RefJson.lt_other
              _ _ _ _ bob H1 H2 H3 H4 H5 H6) as (earlier & Hd1 & Hd2).
  assert (E : earlier = [ann; old_entry]).
  { assert (Hc : dashboard RefJson.loads RefJson.lt_other (disk_of (JList [old_entry; ann]))
                 = (Ok [ann; old_entry], disk_of (JList [old_entry; ann])))
      by (vm_compute; reflexivity).
    rewrite Hc in Hd1. now injection Hd1 as <-. }
  rewrite E in Hd1, Hd2. split; assumption.
Defined.

Lemma male_formula_spellings_witness :
  int_to_float 30 = Ok 30%float /\
  (In "MaLe" male_spellings ->
   calculate_bmr_mifflin_st_jeor 80 180 30 "MaLe"
   = Ok (10 * 80 + 6.25 * 180 - 5 * 30 + 5)%float) /\
  (~ In "MaLe" male_spellings ->
   calculate_bmr_mifflin_st_jeor 80 180 30 "MaLe"
   = Ok (10 * 80 + 6.25 * 180 - 5 * 30 - 161)%float).
Proof.
  split; [reflexivity|].
  exact (male_formula_spellings 80 180 30 30 "MaLe" eq_refl).
Defined.


Example calculate_overflow_before_save :
  calculate RefJson.loads RefJson.dumps "Ann" 180 80 (2 ^ 1024) "male" "moderate"
    (Some "on") noon empty_disk = (Raise OverflowError, empty_disk).
Proof. vm_compute. reflexivity. Qed.

Lemma calculate_saves_entry_witness :
  computed_result 180 80 30 "male" "moderate" = Ok example_result /\
  load_users DecJson.loads (disk_of (JList [ann]))
  = (Ok (JList [ann]), disk_of (JList [ann])) /\
  calculate DecJson.loads DecJson.dumps "" 180 80 30 "male" "moderate"
    (Some "on") noon (disk_of (JList [ann]))
  = (Ok (response_of "" 180 80 30 "male" "moderate" (Some "on") example_result),
     disk_with (JList [ann; example_entry])) /\
  read_refusal (disk_of (JList [ann])) = None /\
  DecJson.loads (universal_newlines (DecJson.dumps (JList ([ann] ++ [example_entry]))))
  = Some (JList ([ann] ++ [example_entry])) /\
  result_ (response_of "" 180 80 30 "male" "moderate" (Some "on") example_result)
  = example_result /\
  saved (response_of "" 180 80 30 "male" "moderate" (Some "on") example_result) = true /\
  data_file (disk_with (JList [ann; example_entry]))
  = Some (DecJson.dumps (JList ([ann] ++ [example_entry]))) /\
  load_users DecJson.loads (disk_with (JList [ann; example_entry]))
  = (Ok (JList ([ann] ++ [example_entry])), disk_with (JList [ann; example_entry])) /\
  get example_entry "name" JNull = Ok (JStr "Anonymous") /\
  get example_entry "timestamp" JNull = Ok (JStr (noon ++ "Z")) /\
  get example_entry "results" JNull = Ok (Result.to_json example_result).
Proof.
  assert (H1 : computed_result 180 80 30 "male" "moderate" = Ok example_result)
    by (vm_compute; reflexivity).
  assert (H2 : load_users DecJson.loads (disk_of (JList [ann]))
               = (Ok (JList [ann]), disk_of (JList [ann])))
    by (vm_compute; reflexivity).
  assert (H3 : calculate DecJson.loads DecJson.dumps "" 180 80 30 "male" "moderate"
                 (Some "on") noon (disk_of (JList [ann]))
               = (Ok (response_of "" 180 80 30 "male" "moderate" (Some "on")
                        example_result),
                  disk_with (JList [ann; example_entry])))
    by (vm_compute; reflexivity).
  assert (H4 : read_refusal (disk_of (JList [ann])) = None) by reflexivity.
  assert (H5 : DecJson.loads
                 (universal_newlines (DecJson.dumps (JList ([ann] ++ [example_entry]))))
               = Some (JList ([ann] ++ [example_entry])))
    by (vm_compute; reflexivity).
  repeat (split; [assumption|]).
  exact (calculate_saves_entry DecJson.loads DecJson.dumps "" 180 80 30
           "male" "moderate" "on" noon _ _ _ [ann] example_result _ H1 H2 H3 H4 H5).
Defined.

Lemma calculate_save_on_broken_store_witness :
  computed_result 180 80 30 "male" "moderate" = Ok example_result /\
  load_users RefJson.loads object_disk = (Ok (JDict []), object_disk) /\
  (forall l, JDict [] <> JList l) /\
  calculate RefJson.loads RefJson.dumps "Ann" 180 80 30 "male" "moderate"
    (Some "on") noon object_disk = (Raise AttributeError, object_disk) /\
  exists answer,
    calculate RefJson.loads RefJson.dumps "Ann" 180 80 30 "male" "moderate"
      None noon object_disk = (Ok answer, object_disk) /\
    result_ answer = example_result.
Proof.
  assert (H1 : computed_result 180 80 30 "male" "moderate" = Ok example_result)
    by (vm_compute; reflexivity).
  assert (H2 : load_users RefJson.loads object_disk = (Ok (JDict []), object_disk))
    by (vm_compute; reflexivity).
  assert (H3 : forall l, JDict [] <> JList l) by (intros l H; discriminate H).
  repeat (split; [assumption|]).
  exact (calculate_save_on_broken_store RefJson.loads RefJson.dumps "Ann" 180 80 30
           "male" "moderate" "on" noon _ _ _ example_result H1 H2 H3).
Defined.

Lemma calculate_result_of_inputs_witness :
  calculate RefJson.loads RefJson.dumps "Ann" 180 80 30 "male" "moderate"
    None noon empty_disk
  = (Ok (response_of "Ann" 180 80 30 "male" "moderate" None example_result),
     empty_disk) /\
  calculate DecJson.loads DecJson.dumps "" 180 80 30 "male" "moderate"
    (Some "on") "2025-01-01T00:00:00" (disk_of (JList [ann]))
  = (Ok (response_of "" 180 80 30 "male" "moderate" (Some "on") example_result),
     disk_with
       (JList [ann; saved_entry "" 180 80 30 "male" "moderate"
                      "2025-01-01T00:00:00" example_result])) /\
  result_ (response_of "Ann" 180 80 30 "male" "moderate" None example_result)
  = result_ (response_of "" 180 80 30 "male" "moderate" (Some "on") example_result).
Proof.
  assert (H1 : calculate RefJson.loads RefJson.dumps "Ann" 180 80 30 "male" "moderate"
                 None noon empty_disk
               = (Ok (response_of "Ann" 180 80 30 "male" "moderate" None example_result),
                  empty_disk))
    by (vm_compute; reflexivity).
  assert (H2 : calculate DecJson.loads DecJson.dumps "" 180 80 30 "male" "moderate"
                 (Some "on") "2025-01-01T00:00:00" (disk_of (JList [ann]))
               = (Ok (response_of "" 180 80 30 "male" "moderate" (Some "on") example_result),
                  disk_with
                    (JList [ann; saved_entry "" 180 80 30 "male" "moderate"
                                   "2025-01-01T00:00:00" example_result])))
    by (vm_compute; reflexivity).
  repeat (split; [assumption|]).
  exact (calculate_result_of_inputs _ _ _ _ _ _ _ _ _ _ _ _ _ _ _ _ _ _ _ _ _ H1 H2).
Defined.

Lemma calculate_then_dashboard_witness :
  computed_result 180 80 30 "male" "moderate" = Ok example_result /\
  load_users DecJson.loads (disk_of (JList [old_entry; ann]))
  = (Ok (JList [old_entry; ann]), disk_of (JList [old_entry; ann])) /\
  calculate DecJson.loads DecJson.dumps "" 180 80 30 "male" "moderate"
    (Some "on") noon (disk_of (JList [old_entry; ann]))
  = (Ok (response_of "" 180 80 30 "male" "moderate" (Some "on") example_result),
     disk_with (JList [old_entry; ann; example_entry])) /\
  read_refusal (disk_of (JList [old_entry; ann])) = None /\
  DecJson.loads
    (universal_newlines (DecJson.dumps (JList ([old_entry; ann] ++ [example_entry]))))
  = Some (JList ([old_entry; ann] ++ [example_entry])) /\
  forallb is_entry [old_entry; ann] = true /\
  dashboard DecJson.loads RefJson.lt_other (disk_with (JList [old_entry; ann; example_entry]))
  = (Ok [example_entry; ann; old_entry], disk_with (JList [old_entry; ann; example_entry])) /\
  In example_entry [example_entry; ann; old_entry] /\
  timestamp_of example_entry = (noon ++ "Z")%string.
Proof.
  assert (H1 : computed_result 180 80 30 "male" "moderate" = Ok example_result)
    by (vm_compute; reflexivity).
  assert (H2 : load_users DecJson.loads (disk_of (JList [old_entry; ann]))
               = (Ok (JList [old_entry; ann]), disk_of (JList [old_entry; ann])))
    by (vm_compute; reflexivity).
  assert (H3 : calculate DecJson.loads DecJson.dumps "" 180 80 30 "male" "moderate"
                 (Some "on") noon (disk_of (JList [old_entry; ann]))
               = (Ok (response_of "" 180 80 30 "male" "moderate" (Some "on")
                        example_result),
                  disk_with (JList [old_entry; ann; example_entry])))
    by (vm_compute; reflexivity).
  assert (H4 : read_refusal (disk_of (JList [old_entry; ann])) = None) by reflexivity.
  assert (H5 : DecJson.loads
                 (universal_newlines
                    (DecJson.dumps (JList ([old_entry; ann] ++ [example_entry]))))
               = Some (JList ([old_entry; ann] ++ [example_entry])))
    by (vm_compute; reflexivity).
  assert (H6 : forallb is_entry [old_entry; ann] = true) by reflexivity.
  repeat (split; [assumption|]).
  destruct (calculate_then_dashboard DecJson.loads DecJson.dumps RefJson.lt_other
              "" 180 80 30 "male" "moderate" "on" noon _ _ _ [old_entry; ann]
              example_result _ H1 H2 H3 H4 H5 H6)
    as (listing & Hd & Hl & Hin & Ht & _).
  assert (E : listing = [example_entry; ann; old_entry])
    by (rewrite Hl; vm_compute; reflexivity).
  rewrite E in Hd, Hin. repeat split; assumption.
Defined.

(** The file after the request of the worked example, saved into an empty
    store, and the listing that follows. *)
Example calculate_writes :
  data_file (snd (calculate DecJson.loads DecJson.dumps "" 180 80 30 "male" "moderate"
                    (Some "on") noon empty_disk))
  = Some (DecJson.dumps (JList [example_entry])) /\
  fst (dashboard DecJson.loads RefJson.lt_other
         (snd (calculate DecJson.loads DecJson.dumps "" 180 80 30 "male" "moderate"
                 (Some "on") noon (disk_of (JList [old_entry; ann])))))
  = Ok [example_entry; ann; old_entry].
Proof. split; vm_compute; reflexivity. Qed.

Lemma calculate_rejects_nan_witness :
  Z.abs 30 < int_overflow_bound /\
  (is_nan nan = true \/ is_nan 180 = true) /\
  calculate RefJson.loads RefJson.dumps "Ann" 180 nan 30 "male" "moderate"
    (Some "on") noon empty_disk = (Raise ValueError, empty_disk).
Proof.
  assert (H1 : Z.abs 30 < int_overflow_bound) by reflexivity.
  assert (H2 : is_nan nan = true \/ is_nan 180 = true) by (left; reflexivity).
  repeat (split; [assumption|]).
  exact (calculate_rejects_nan RefJson.loads RefJson.dumps "Ann" 180 nan 30
           "male" "moderate" (Some "on") noon empty_disk H1 H2).
Defined.
